(** * aws-runas: role discovery and the EC2 metadata credential service

    A shallow embedding of two parts of aws-runas:

    - [Util]: the role discovery engine of lib/util (the [Roles] type with
      [Dedup], and [parsePolicy]).  The file lib/util/role_getter.go is not
      among the sources at hand; only its test suite role_getter_test.go is.
      The definitions of that module are therefore modelled from the
      specification and are checked against every case of the test suite.
      Where the two leave the behaviour of [parsePolicy] open (which texts
      that are not JSON it refuses), the model takes a parameter, and the
      theorems hold for every value of it.

    - [Metadata]: lib/metadata/ec2_metadata_service.go, the HTTP handlers of
      the metadata service and the package-level variables they share.

    Go strings are byte strings: they are embedded as [string], whose
    characters are the 256 values of [ascii].  Logging is left out of the
    model: no handler reads back what it logs. *)

From Stdlib Require Import ZArith Ascii String List Sorting.Sorted Lia Bool DecimalString.
From stdpp Require Import base gmap sets list strings.
Import ListNotations.
Open Scope string_scope.
Set Warnings "-register-all".

(** Go functions that return [(T, error)]. *)
Inductive Result (E A : Type) : Type :=
| Ok (a : A)
| Err (e : E).
Arguments Ok {E A} a.
Arguments Err {E A} e.


(* ===================================================================== *)
(** * lib/util: role discovery *)
(* ===================================================================== *)

Module Util.

(** ** Roles and Dedup *)

(** [type Roles []string].  A Go slice is either nil or a sequence; the test
    suite feeds both to [Dedup], so the input keeps the distinction. *)
Definition Roles : Type := option (list string).

Definition elems (r : Roles) : list string :=
  match r with
  | None => []
  | Some l => l
  end.

(** Go compares strings byte by byte: [s1 < s2] in Go is [str_lt s1 s2]. *)
Definition str_lt (s1 s2 : string) : Prop := String.compare s1 s2 = Lt.

(** Sorting into ascending order, as [sort.Strings] does (the result of a
    sort of strings does not depend on the algorithm: equal strings are
    indistinguishable). *)
Fixpoint insert_sorted (x : string) (l : list string) : list string :=
  match l with
  | [] => [x]
  | y :: l' => if String.leb x y then x :: l else y :: insert_sorted x l'
  end.

Definition sort_strings (l : list string) : list string :=
  fold_right insert_sorted [] l.

(** Modelled from the spec: [Roles.Dedup] of lib/util/role_getter.go, which is
    missing from the sources.  Section 4.1: "deduplicate and sort ascending
    lexically before returning"; section 3: "empty/absent input yields an
    empty set, never an error".  The result is given as the sequence of its
    elements (what [range] and [len] see of it). *)
Definition Dedup (r : Roles) : list string :=
  sort_strings (remove_dups (elems r)).

(** ** JSON documents

    Policy documents are JSON text, decoded in Go by encoding/json into
    [map[string]interface{}].  The decoder below follows RFC 8259: a lexer
    that is a state machine over the bytes of the text, and a pushdown
    parser over the tokens.  Both are structurally recursive, so decoding
    is total.  Numbers keep their lexeme (no claim reads a number); bytes
    above 0x7f inside strings are kept as they are. *)

Inductive json : Type :=
| JNull
| JBool (b : bool)
| JNumber (lexeme : string)
| JString (s : string)
| JArray (items : list json)
| JObject (fields : list (string * json)).

Inductive token : Type :=
| TLBrace | TRBrace | TLBrack | TRBrack | TColon | TComma
| TStr (s : string)
| TNum (lexeme : string)
| TWord (w : string).

Definition byte_of (n : N) : ascii := ascii_of_N n.
Definition code (c : ascii) : N := N_of_ascii c.
Definition dquote : ascii := byte_of 34.

Definition is_ws (c : ascii) : bool :=
  let n := code c in
  (n =? 32)%N || (n =? 9)%N || (n =? 10)%N || (n =? 13)%N.

Definition is_digit (c : ascii) : bool :=
  let n := code c in (48 <=? n)%N && (n <=? 57)%N.

Definition is_letter (c : ascii) : bool :=
  let n := code c in (97 <=? n)%N && (n <=? 122)%N.

Definition is_num_char (c : ascii) : bool :=
  is_digit c || Ascii.eqb c "-" || Ascii.eqb c "+" || Ascii.eqb c "."
  || Ascii.eqb c "e" || Ascii.eqb c "E".

Definition hex_val (c : ascii) : option N :=
  let n := code c in
  if (48 <=? n)%N && (n <=? 57)%N then Some (n - 48)%N
  else if (97 <=? n)%N && (n <=? 102)%N then Some (n - 87)%N
  else if (65 <=? n)%N && (n <=? 70)%N then Some (n - 55)%N
  else None.

(** UTF-8 encoding of a code point, most significant byte first. *)
Definition utf8 (u : N) : list ascii :=
  if (u <? 128)%N then [byte_of u]
  else if (u <? 2048)%N then
    [byte_of (192 + u / 64); byte_of (128 + u mod 64)]
  else if (u <? 65536)%N then
    [byte_of (224 + u / 4096); byte_of (128 + (u / 64) mod 64);
     byte_of (128 + u mod 64)]
  else
    [byte_of (240 + u / 262144); byte_of (128 + (u / 4096) mod 64);
     byte_of (128 + (u / 64) mod 64); byte_of (128 + u mod 64)].

Definition replacement : N := 65533.

Definition is_high_surrogate (u : N) : bool := (55296 <=? u)%N && (u <? 56320)%N.
Definition is_low_surrogate (u : N) : bool := (56320 <=? u)%N && (u <? 57344)%N.

(** The bytes of a string literal are accumulated in reverse.  [pend] is a
    high surrogate read from a [\u] escape and still waiting for its low
    half; an unpaired surrogate decodes to U+FFFD, as in encoding/json. *)
Definition push_bytes (bs : list ascii) (acc : list ascii) : list ascii :=
  rev_append bs acc.

Definition flush (pend : option N) (acc : list ascii) : list ascii :=
  match pend with
  | None => acc
  | Some _ => push_bytes (utf8 replacement) acc
  end.

Definition push_unit (pend : option N) (u : N) (acc : list ascii)
  : option N * list ascii :=
  match pend with
  | Some hi =>
      if is_low_surrogate u
      then (None, push_bytes (utf8 (65536 + (hi - 55296) * 1024 + (u - 56320))) acc)
      else
        let acc' := push_bytes (utf8 replacement) acc in
        if is_high_surrogate u then (Some u, acc')
        else (None, push_bytes (utf8 u) acc')
  | None =>
      if is_high_surrogate u then (Some u, acc)
      else if is_low_surrogate u then (None, push_bytes (utf8 replacement) acc)
      else (None, push_bytes (utf8 u) acc)
  end.

Definition unescape (c : ascii) : option ascii :=
  if Ascii.eqb c dquote then Some c
  else if Ascii.eqb c "\" then Some c
  else if Ascii.eqb c "/" then Some c
  else if Ascii.eqb c "b" then Some (byte_of 8)
  else if Ascii.eqb c "f" then Some (byte_of 12)
  else if Ascii.eqb c "n" then Some (byte_of 10)
  else if Ascii.eqb c "r" then Some (byte_of 13)
  else if Ascii.eqb c "t" then Some (byte_of 9)
  else None.

Definition string_of_rev (acc : list ascii) : string :=
  string_of_list_ascii (rev' acc).

(** The number grammar of JSON: an optional minus sign; then a single zero,
    or a nonzero digit followed by digits; then an optional fraction (a dot
    and at least one digit); then an optional exponent (e or E, an optional
    sign, at least one digit). *)
Inductive num_state : Type :=
| NStart | NMinus | NZero | NInt | NDot | NFrac | NExp | NExpSign | NExpDigits.

Definition num_step (st : num_state) (c : ascii) : option num_state :=
  let d := is_digit c in
  let z := Ascii.eqb c "0" in
  let e := Ascii.eqb c "e" || Ascii.eqb c "E" in
  match st with
  | NStart => if Ascii.eqb c "-" then Some NMinus
              else if z then Some NZero else if d then Some NInt else None
  | NMinus => if z then Some NZero else if d then Some NInt else None
  | NZero => if Ascii.eqb c "." then Some NDot else if e then Some NExp else None
  | NInt => if d then Some NInt
            else if Ascii.eqb c "." then Some NDot else if e then Some NExp else None
  | NDot => if d then Some NFrac else None
  | NFrac => if d then Some NFrac else if e then Some NExp else None
  | NExp => if d then Some NExpDigits
            else if Ascii.eqb c "-" || Ascii.eqb c "+" then Some NExpSign else None
  | NExpSign => if d then Some NExpDigits else None
  | NExpDigits => if d then Some NExpDigits else None
  end.

Fixpoint num_run (st : num_state) (s : string) : option num_state :=
  match s with
  | EmptyString => Some st
  | String c s' =>
      match num_step st c with
      | Some st' => num_run st' s'
      | None => None
      end
  end.

Definition valid_number (s : string) : bool :=
  match num_run NStart s with
  | Some NZero | Some NInt | Some NFrac | Some NExpDigits => true
  | _ => false
  end.

Definition valid_word (s : string) : bool :=
  String.eqb s "true" || String.eqb s "false" || String.eqb s "null".

(** Lexer states. *)
Inductive lex_state : Type :=
| LNormal
| LString (pend : option N) (acc : list ascii)
| LEscape (pend : option N) (acc : list ascii)
| LUnicode (pend : option N) (acc : list ascii) (digits : nat) (val : N)
| LNumber (acc : list ascii)
| LWord (acc : list ascii).

Definition punct (c : ascii) : option token :=
  if Ascii.eqb c "{" then Some TLBrace
  else if Ascii.eqb c "}" then Some TRBrace
  else if Ascii.eqb c "[" then Some TLBrack
  else if Ascii.eqb c "]" then Some TRBrack
  else if Ascii.eqb c ":" then Some TColon
  else if Ascii.eqb c "," then Some TComma
  else None.

(** A number or a word ends at the first byte that cannot continue it. *)
Definition close_number (acc : list ascii) : option token :=
  let s := string_of_rev acc in
  if valid_number s then Some (TNum s) else None.

Definition close_word (acc : list ascii) : option token :=
  let s := string_of_rev acc in
  if valid_word s then Some (TWord s) else None.

(** One byte read in state [LNormal]: the tokens it gives (in reverse) and
    the next state. *)
Definition lex_normal (c : ascii) : option (list token * lex_state) :=
  if is_ws c then Some ([], LNormal)
  else match punct c with
       | Some t => Some ([t], LNormal)
       | None =>
           if Ascii.eqb c dquote then Some ([], LString None [])
           else if is_digit c || Ascii.eqb c "-" then Some ([], LNumber [c])
           else if is_letter c then Some ([], LWord [c])
           else None
       end.

Definition lex_step (st : lex_state) (c : ascii) : option (list token * lex_state) :=
  match st with
  | LNormal => lex_normal c
  | LString pend acc =>
      if Ascii.eqb c dquote then Some ([TStr (string_of_rev (flush pend acc))], LNormal)
      else if Ascii.eqb c "\" then Some ([], LEscape pend acc)
      else if (code c <? 32)%N then None
      else Some ([], LString None (c :: flush pend acc))
  | LEscape pend acc =>
      if Ascii.eqb c "u" then Some ([], LUnicode pend acc 0 0%N)
      else match unescape c with
           | Some b => Some ([], LString None (b :: flush pend acc))
           | None => None
           end
  | LUnicode pend acc digits val =>
      match hex_val c with
      | None => None
      | Some h =>
          let val' := (val * 16 + h)%N in
          if Nat.eqb digits 3
          then let '(pend', acc') := push_unit pend val' acc in
               Some ([], LString pend' acc')
          else Some ([], LUnicode pend acc (S digits) val')
      end
  | LNumber acc =>
      if is_num_char c then Some ([], LNumber (c :: acc))
      else match close_number acc, lex_normal c with
           | Some t, Some (ts, st') => Some ((ts ++ [t])%list, st')
           | _, _ => None
           end
  | LWord acc =>
      if is_letter c then Some ([], LWord (c :: acc))
      else match close_word acc, lex_normal c with
           | Some t, Some (ts, st') => Some ((ts ++ [t])%list, st')
           | _, _ => None
           end
  end.

(** [lex st racc s]: the tokens of [s] read from state [st]; [racc] holds the
    tokens found so far, last one first. *)
Fixpoint lex (st : lex_state) (racc : list token) (s : string) : option (list token) :=
  match s with
  | EmptyString =>
      match st with
      | LNormal => Some (rev' racc)
      | LNumber acc => option_map (fun t => rev' (t :: racc)) (close_number acc)
      | LWord acc => option_map (fun t => rev' (t :: racc)) (close_word acc)
      | _ => None
      end
  | String c s' =>
      match lex_step st c with
      | Some (ts, st') => lex st' (ts ++ racc)%list s'
      | None => None
      end
  end.

(** Parser: the enclosing containers still open, innermost first. *)
Inductive frame : Type :=
| FArr (acc : list json)
| FObj (acc : list (string * json)) (key : string).

Inductive parse_state : Type :=
| PValue (st : list frame)
| PArrFirst (st : list frame)
| PObjFirst (st : list frame)
| PObjKey (acc : list (string * json)) (st : list frame)
| PColon (acc : list (string * json)) (key : string) (st : list frame)
| PAfterArr (acc : list json) (st : list frame)
| PAfterObj (acc : list (string * json)) (st : list frame)
| PDone (v : json).

(** A value is complete: it goes to the innermost open container. *)
Definition reduce (v : json) (st : list frame) : parse_state :=
  match st with
  | [] => PDone v
  | FArr acc :: st' => PAfterArr (v :: acc) st'
  | FObj acc k :: st' => PAfterObj ((k, v) :: acc) st'
  end.

Definition word_value (w : string) : json :=
  if String.eqb w "true" then JBool true
  else if String.eqb w "false" then JBool false
  else JNull.

Definition parse_value (st : list frame) (t : token) : option parse_state :=
  match t with
  | TStr s => Some (reduce (JString s) st)
  | TNum n => Some (reduce (JNumber n) st)
  | TWord w => Some (reduce (word_value w) st)
  | TLBrack => Some (PArrFirst st)
  | TLBrace => Some (PObjFirst st)
  | _ => None
  end.

Definition parse_step (p : parse_state) (t : token) : option parse_state :=
  match p, t with
  | PValue st, _ => parse_value st t
  | PArrFirst st, TRBrack => Some (reduce (JArray []) st)
  | PArrFirst st, _ => parse_value (FArr [] :: st) t
  | PObjFirst st, TRBrace => Some (reduce (JObject []) st)
  | PObjFirst st, TStr k => Some (PColon [] k st)
  | PObjKey acc st, TStr k => Some (PColon acc k st)
  | PColon acc k st, TColon => Some (PValue (FObj acc k :: st))
  | PAfterArr acc st, TComma => Some (PValue (FArr acc :: st))
  | PAfterArr acc st, TRBrack => Some (reduce (JArray (rev' acc)) st)
  | PAfterObj acc st, TComma => Some (PObjKey acc st)
  | PAfterObj acc st, TRBrace => Some (reduce (JObject (rev' acc)) st)
  | _, _ => None
  end.

Fixpoint parse_tokens (p : parse_state) (ts : list token) : option json :=
  match ts with
  | [] => match p with PDone v => Some v | _ => None end
  | t :: ts' =>
      match parse_step p t with
      | Some p' => parse_tokens p' ts'
      | None => None
      end
  end.

(** Decoding of a JSON text; [None] is a syntax error. *)
Definition json_decode (text : string) : option json :=
  match lex LNormal [] text with
  | Some ts => parse_tokens (PValue []) ts
  | None => None
  end.

(** [json.Unmarshal(text, &m)] for [m] a [map[string]interface{}] that starts
    empty, with the map after the call: the fields of a JSON object; no
    field and no error for [null], which sets the map to nil; an error, and
    the map left empty, for a syntax error or a value of another kind.  A
    key that occurs twice keeps its last value. *)
Definition json_Unmarshal (text : string) : Result unit (list (string * json)) :=
  match json_decode text with
  | Some (JObject fields) => Ok fields
  | Some JNull => Ok []
  | _ => Err tt
  end.

(** [m[key]] on the decoded map: the last binding of [key], if any. *)
Fixpoint field (key : string) (fields : list (string * json)) : option json :=
  match fields with
  | [] => None
  | (k, v) :: rest =>
      match field key rest with
      | Some v' => Some v'
      | None => if String.eqb k key then Some v else None
      end
  end.

(** ** Policy documents *)

Definition AssumeRoleAction : string := "sts:AssumeRole".

(** [Action] equals the literal, or is a list that contains it. *)
Definition action_allows (action : option json) : bool :=
  match action with
  | Some (JString a) => String.eqb a AssumeRoleAction
  | Some (JArray items) =>
      existsb (fun j => match j with
                        | JString a => String.eqb a AssumeRoleAction
                        | _ => false
                        end) items
  | _ => false
  end.

(** [Resource] is one string or a list of strings, flattened. *)
Definition resource_values (resource : option json) : list string :=
  match resource with
  | Some (JString r) => [r]
  | Some (JArray items) =>
      flat_map (fun j => match j with JString r => [r] | _ => [] end) items
  | _ => []
  end.

(** The statements that contribute. *)
Definition contributes (stmt : json) : bool :=
  match stmt with
  | JObject f =>
      match field "Effect" f with
      | Some (JString e) => String.eqb e "Allow" && action_allows (field "Action" f)
      | _ => false
      end
  | _ => false
  end.

Definition statement_roles (stmt : json) : list string :=
  match stmt with
  | JObject f => if contributes stmt then resource_values (field "Resource" f) else []
  | _ => []
  end.

Definition statements (doc : list (string * json)) : list json :=
  match field "Statement" doc with
  | Some (JArray stmts) => stmts
  | _ => []
  end.

(** The errors of [parsePolicy]: the document is missing, or its text is not
    JSON. *)
Inductive policy_error : Type :=
| NilDocument
| InvalidDocument.

(** Two documents of [TestParsePolicy] that are not JSON: the text of subtest
    "string" and the empty text of subtest "empty doc". *)
Definition test_string : string := "string-only".
Definition test_empty : string := EmptyString.

(** Modelled from the spec: which texts that fail to decode [parsePolicy]
    refuses.  Sections 4.1 and 7 make a text that is not JSON an error;
    subtests "string" and "empty doc" of [TestParsePolicy] require a nil
    error and no role for [test_string] and [test_empty], neither of which is
    JSON.  Beyond these two texts neither the specification nor the test
    suite settles where the line is drawn, so the line is a parameter of the
    model, bound only by the two subtests. *)
Record Strictness : Type := {
  refuses : string -> bool;
  refuses_string_only : refuses test_string = false;
  refuses_empty : refuses test_empty = false
}.

(** Modelled from the spec: [parsePolicy] of lib/util/role_getter.go, which is
    missing from the sources.  Section 4.1: a missing document is an error;
    statements are enumerated from the [Statement] field (absent or not an
    array: no statement); each statement is inspected on its own and
    contributes by the rule of [contributes]; the result is deduplicated and
    sorted.  A text that fails to decode is an error when it is refused
    (sections 4.1 and 7); when it is let through, as the test suite requires
    of [test_string] and [test_empty], the map of the document stays empty
    and no role is found. *)
Definition parsePolicy (strict : Strictness) (doc : option string)
  : Result policy_error (list string) :=
  match doc with
  | None => Err NilDocument
  | Some text =>
      match json_Unmarshal text with
      | Ok polJson => Ok (Dedup (Some (flat_map statement_roles (statements polJson))))
      | Err _ =>
          if refuses strict text then Err InvalidDocument
          else Ok (Dedup (Some (flat_map statement_roles (statements []))))
      end
  end.

(** Two ways of drawing the line: every text is let through; every text that
    fails to decode is refused, the two of the test suite apart. *)
Definition lenient : Strictness :=
  {| refuses := fun _ => false;
     refuses_string_only := eq_refl;
     refuses_empty := eq_refl |}.

Definition strictest : Strictness :=
  {| refuses := fun text => negb (String.eqb text test_string || String.eqb text test_empty);
     refuses_string_only := eq_refl;
     refuses_empty := eq_refl |}.

(** A text that is not JSON and is not among the documents of the test
    suite. *)
Definition open_brace : string := "{".

(** The documents of the test suite, written with ['] for the double quote. *)
Definition nl : string := String (byte_of 10) EmptyString.

Fixpoint jq (s : string) : string :=
  match s with
  | EmptyString => EmptyString
  | String c s' => String (if Ascii.eqb c "'" then dquote else c) (jq s')
  end.

Definition test_good : string :=
  jq ("{'Statement': [{'Effect': 'None'}, {'Effect': 'Deny', 'Action': 'sts:AssumeRole'}, " ++ nl ++
      "                             {'Effect': 'Allow', 'Action': ['sts:AssumeRole', 's3:*'], 'Resource': 'a'}," ++ nl ++
      "                             {'Effect': 'Allow', 'Action': 'sts:AssumeRole', 'Resource': 'x'}," ++ nl ++
      "                             {'Effect': 'Allow', 'Action': 'sts:AssumeRole', 'Resource': ['y', 'z']}" ++ nl ++
      "                            ]}").


Definition example_roles : Roles :=
  Some ["mock3"; "mock2"; "mock1"; "mock2"; "mock4"; "mock1"].

Definition test_good_doc : list (string * json) :=
  Eval vm_compute in
    match json_Unmarshal test_good with Ok d => d | Err _ => [] end.

Definition test_good_statements : list json :=
  Eval vm_compute in statements test_good_doc.

(** ** The contribution rule, in the words of section 4.1 *)

(** [Action] equals the literal action, or is a list that contains it. *)
Definition names_assume_role (action : option json) : Prop :=
  action = Some (JString "sts:AssumeRole")
  \/ exists items, action = Some (JArray items) /\ In (JString "sts:AssumeRole") items.

(** [r] is the [Resource], or one of the strings of the list [Resource]. *)
Definition resource_of (r : string) (resource : option json) : Prop :=
  resource = Some (JString r)
  \/ exists items, resource = Some (JArray items) /\ In (JString r) items.

(** A statement that is an object with fields [f], whose [Effect] is Allow
    and whose [Action] names the action. *)
Definition allowed_statement (stmt : json) (f : list (string * json)) : Prop :=
  stmt = JObject f
  /\ field "Effect" f = Some (JString "Allow")
  /\ names_assume_role (field "Action" f).



End Util.

(* ===================================================================== *)
(** * lib/metadata: the EC2 metadata credential service *)
(* ===================================================================== *)

Module Metadata.

(** ** Constants *)

Definition EC2MetadataCredentialPath : string := "/latest/meta-data/iam/security-credentials/".
Definition MfaPath : string := "/mfa".
Definition ProfilePath : string := "/profile".
Definition ListRolesPath : string := "/list-roles".
Definition RefreshPath : string := "/refresh".

Definition MethodGet : string := "GET".
Definition MethodPost : string := "POST".

Definition StatusOK : Z := 200.
Definition StatusUnauthorized : Z := 401.
Definition StatusInternalServerError : Z := 500.

(** [time.Duration] counts nanoseconds; an instant is the number of
    nanoseconds since the epoch.  Instants are unbounded integers: the years
    that [time.Time] covers are far from any clock reading. *)
Definition Second : Z := 1000000000.
Definition time_Add (t d : Z) : Z := (t + d)%Z.

(** ** Data of the collaborating packages *)

(** Modelled from the spec: [config.AwsConfig] of lib/config, which is missing
    from the sources (section 3, Role Configuration: source-profile name,
    target role reference, optional MFA serial, optional external id,
    requested session duration).  The fields are the ones the handlers read. *)
Record AwsConfig : Type := {
  SourceProfile : string;
  RoleArn : string;
  MfaSerial : string;
  ExternalID : string;
  SessionDuration : Z
}.

(** Modelled from the spec: [credlib.AwsIdentity] of lib/credentials, which is
    missing from the sources (section 3, Principal: account identifier and
    display name). *)
Record AwsIdentity : Type := {
  Account : string;
  UserName : string
}.

(** The errors that the handlers tell apart.  [ErrMfaRequired] is
    [*credlib.ErrMfaRequired] (the explicit signal of section 4.2),
    [AwsError] is an [awserr.Error] with its code and message, and
    [OtherError] is any other error value. *)
Inductive error : Type :=
| ErrMfaRequired
| AwsError (Code Message : string)
| OtherError (text : string).

(** [aws.Config], as far as [updateSession] writes it. *)
Record aws_Config : Type := {
  CredentialsChainVerboseErrors : bool;
  LogLevelDebug : bool
}.

(** [session.Options] and [session.Session]. *)
Record Options : Type := {
  opt_Config : aws_Config;
  opt_Profile : string
}.

Record Session : Type := {
  Config : aws_Config;
  Profile : string
}.

(** [credentials.Value]. *)
Record Value : Type := {
  AccessKeyID : string;
  SecretAccessKey : string;
  SessionToken : string
}.

Definition emptyValue : Value :=
  {| AccessKeyID := EmptyString; SecretAccessKey := EmptyString; SessionToken := EmptyString |}.

(** Modelled from the spec: the settings of [credlib.SessionTokenProvider]
    (lib/credentials, missing from the sources) that the handlers write.
    [Cache] is the path of the [cache.FileCredentialCache], if one is set. *)
Record SessionTokenProvider : Type := {
  Duration : Z;
  SerialNumber : string;
  TokenCode : string;
  Cache : option string
}.

(** The settings of [credlib.AssumeRoleProvider] that [assumeRole] writes. *)
Record AssumeRoleProvider : Type := {
  ar_RoleArn : string;
  ar_Duration : Z;
  ar_ExternalID : string;
  ar_RoleSessionName : string
}.

(** [credentials.Credentials] of the AWS SDK over a session token provider:
    the value last retrieved, the flag that forces the next [Get] to
    retrieve again, and the expiration the provider recorded.
    [c_session] is the session the object was made with. *)
Record Credentials : Type := {
  c_session : option Session;
  c_provider : SessionTokenProvider;
  c_creds : Value;
  c_forceRefresh : bool;
  c_expiration : Z
}.

(** [ec2MetadataOutput]. *)
Record ec2MetadataOutput : Type := {
  o_Code : string;
  o_LastUpdated : string;
  o_Type : string;
  o_AccessKeyId : string;
  o_SecretAccessKey : string;
  o_Token : string;
  o_Expiration : string
}.

(** [handlerError]: the embedded [error] is always nil. *)
Record handlerError : Type := {
  msg : string;
  code : Z
}.

Definition newHandlerError (m : string) (c : Z) : handlerError :=
  {| msg := m; code := c |}.

Definition Error (e : handlerError) : string := msg e.

(** ** Requests and responses *)

(** [io.Reader], seen through the one [Read] that a handler makes: for a
    buffer of [size] bytes, the bytes delivered and the error returned with
    them ([None] is a nil error). *)
Inductive IoError : Type :=
| EOF
| IoFailure (text : string).

Record ReadResult : Type := {
  delivered : string;
  read_err : option IoError
}.

Definition Reader : Type := nat -> ReadResult.

(** [n, err := r.Read(b)] followed by [b[:n]]: a reader never delivers more
    than the buffer holds. *)
Definition Read (r : Reader) (size : nat) : string * option IoError :=
  (substring 0 size (delivered (r size)), read_err (r size)).

(** [err != nil && err != io.EOF]. *)
Definition read_failed (e : option IoError) : bool :=
  match e with
  | Some (IoFailure _) => true
  | _ => false
  end.

(** The lengths of the buffers that [getProfileConfig] and [getMfa] make. *)
Definition profileBufferLen : nat := 4096.
Definition mfaBufferLen : nat := 64.

(** [strings.NewReader(text)]. *)
Definition strings_NewReader (text : string) : Reader :=
  fun size =>
    {| delivered := substring 0 size text;
       read_err := if Nat.eqb (String.length text) 0 then Some EOF else None |}.

Record Request : Type := {
  Method : string;
  Path : string;
  Body : option Reader
}.

Record Response : Type := {
  status : Z;
  content_type : string;
  content_length : string;
  body : string
}.

(** ** The collaborators

    What the handlers call and the sources do not define: the configuration
    resolver, the AWS SDK, the credential providers of lib/credentials, the
    clock and the formatting functions of the Go library.  The files on disk
    are a set of paths; a provider with a cache may read and write them. *)
Record Env : Type := {
  (** [cfg.ResolveConfig] *)
  ResolveConfig : string -> Result error AwsConfig;
  (** [session.NewSessionWithOptions] *)
  NewSessionWithOptions : Options -> Result error Session;
  (** [credlib.NewAwsIdentityManager(s).GetCallerIdentity] *)
  GetCallerIdentity : Session -> Result error AwsIdentity;
  (** [Retrieve] of the session token provider: the files after the call, and
      the value with its expiration, or an error *)
  SessionTokenRetrieve :
    option Session -> SessionTokenProvider -> gset string ->
    gset string * Result error (Value * Z);
  (** [Get] of the assume role credentials built over the session
      credentials: what the session credentials retrieved anew during the
      call, if they did; the files after the call; and the value with the
      expiration that the identity provider returned *)
  AssumeRoleGet :
    Session -> option Credentials -> AssumeRoleProvider -> gset string ->
    option (Value * Z) * gset string * Result error (Value * Z);
  (** [IsExpired] of the session token provider, from its settings and the
      expiration it recorded *)
  SessionTokenIsExpired : SessionTokenProvider -> Z -> bool;
  AssumeRoleDefaultDuration : Z;
  AssumeRoleMinDuration : Z;
  (** [filepath.Join] *)
  filepath_Join : string -> string -> string;
  (** the successive readings of [time.Now] *)
  clock : nat -> Z;
  (** [t.UTC().Format(time.RFC3339)] and [t.Local().String()] *)
  Format_RFC3339 : Z -> string;
  Local_String : Z -> string;
  (** [json.Marshal] on [ec2MetadataOutput] *)
  json_Marshal : ec2MetadataOutput -> Result error string
}.

(** ** The state

    The package variables [profile], [role], [s], [cred], [usr] and
    [cacheDir], with the level of [log], the files on disk, the number of
    clock readings made, and the calls made to the identity provider (a
    ghost record: no handler reads it). *)
Inductive Event : Type :=
| EvNewSession (o : Options)
| EvGetCallerIdentity (se : Session)
| EvSessionToken (se : option Session) (pv : SessionTokenProvider)
| EvAssumeRole (se : Session) (pv : AssumeRoleProvider).

Record World : Type := {
  profile : string;
  role : option AwsConfig;
  s : option Session;
  cred : option Credentials;
  usr : option AwsIdentity;
  cacheDir : string;
  logDebug : bool;
  files : gset string;
  ticks : nat;
  trace : list Event
}.

Definition set_profile (v : string) (w : World) : World :=
  {| profile := v; role := role w; s := s w; cred := cred w; usr := usr w;
     cacheDir := cacheDir w; logDebug := logDebug w; files := files w;
     ticks := ticks w; trace := trace w |}.

Definition set_role (v : option AwsConfig) (w : World) : World :=
  {| profile := profile w; role := v; s := s w; cred := cred w; usr := usr w;
     cacheDir := cacheDir w; logDebug := logDebug w; files := files w;
     ticks := ticks w; trace := trace w |}.

Definition set_s (v : option Session) (w : World) : World :=
  {| profile := profile w; role := role w; s := v; cred := cred w; usr := usr w;
     cacheDir := cacheDir w; logDebug := logDebug w; files := files w;
     ticks := ticks w; trace := trace w |}.

Definition set_cred (v : option Credentials) (w : World) : World :=
  {| profile := profile w; role := role w; s := s w; cred := v; usr := usr w;
     cacheDir := cacheDir w; logDebug := logDebug w; files := files w;
     ticks := ticks w; trace := trace w |}.

Definition set_usr (v : option AwsIdentity) (w : World) : World :=
  {| profile := profile w; role := role w; s := s w; cred := cred w; usr := v;
     cacheDir := cacheDir w; logDebug := logDebug w; files := files w;
     ticks := ticks w; trace := trace w |}.

Definition set_files (v : gset string) (w : World) : World :=
  {| profile := profile w; role := role w; s := s w; cred := cred w; usr := usr w;
     cacheDir := cacheDir w; logDebug := logDebug w; files := v;
     ticks := ticks w; trace := trace w |}.

Definition record (e : Event) (w : World) : World :=
  {| profile := profile w; role := role w; s := s w; cred := cred w; usr := usr w;
     cacheDir := cacheDir w; logDebug := logDebug w; files := files w;
     ticks := ticks w; trace := (trace w ++ [e])%list |}.

Definition tick (w : World) : World :=
  {| profile := profile w; role := role w; s := s w; cred := cred w; usr := usr w;
     cacheDir := cacheDir w; logDebug := logDebug w; files := files w;
     ticks := S (ticks w); trace := trace w |}.

(** The zero [time.Time]: January 1 of year 1, 00:00 UTC. *)
Definition zeroTime : Z := (-62135596800 * Second)%Z.

(** [strconv.Itoa] on a length. *)
Definition Itoa (n : nat) : string := NilZero.string_of_uint (Nat.to_uint n).

(** [strings.Split(text, "/")]. *)
Fixpoint Split_slash (text : string) : list string :=
  match text with
  | EmptyString => [EmptyString]
  | String c rest =>
      if Ascii.eqb c "/" then EmptyString :: Split_slash rest
      else match Split_slash rest with
           | seg :: segs => String c seg :: segs
           | [] => [String c EmptyString]
           end
  end.

(** ** credentials.Credentials *)

(** Modelled from the spec: [credlib.NewSessionCredentials] of lib/credentials,
    which is missing from the sources: [credentials.NewCredentials] over a
    session token provider with the settings that the option function
    writes.  A new object holds no value and retrieves on its first [Get]
    (section 4.2: the session request "may be satisfied from valid on-disk
    cache without a network call"; that is up to the provider). *)
Definition NewSessionCredentials (se : option Session) (pv : SessionTokenProvider)
  : Credentials :=
  {| c_session := se; c_provider := pv; c_creds := emptyValue;
     c_forceRefresh := true; c_expiration := zeroTime |}.

(** [c.Expire()]. *)
Definition Expire (c : Credentials) : Credentials :=
  {| c_session := c_session c; c_provider := c_provider c; c_creds := c_creds c;
     c_forceRefresh := true; c_expiration := c_expiration c |}.

(** [c.ExpiresAt()]: the zero time while a refresh is forced. *)
Definition ExpiresAt (c : Credentials) : Z :=
  if c_forceRefresh c then zeroTime else c_expiration c.

Definition retrieved (c : Credentials) (v : Value) (expiry : Z) : Credentials :=
  {| c_session := c_session c; c_provider := c_provider c; c_creds := v;
     c_forceRefresh := false; c_expiration := expiry |}.

(** The object behind [cred] after a call that may have made it retrieve
    anew; the pointer itself is not assigned. *)
Definition refreshed (c : option Credentials) (anew : option (Value * Z))
  : option Credentials :=
  match c, anew with
  | Some c0, Some (v, expiry) => Some (retrieved c0 v expiry)
  | _, _ => c
  end.

(** ** The handlers *)

Section Handlers.

Variable env : Env.

(** [time.Now()]. *)
Definition time_Now (w : World) : Z * World :=
  (clock env (ticks w), tick w).

(** [os.Remove(path)]; its error is only logged. *)
Definition os_Remove (path : string) (w : World) : World :=
  set_files (files w ∖ {[ path ]}) w.

(** [c.isExpired()]: [c.forceRefresh || c.provider.IsExpired()]. *)
Definition isExpired (c : Credentials) : bool :=
  c_forceRefresh c || SessionTokenIsExpired env (c_provider c) (c_expiration c).

(** [cred.Get()] on the package variable [cred].  [None] is a panic (nil
    receiver).  An expired object calls [Retrieve] of its provider; an
    error leaves the object as it was. *)
Definition cred_Get (w : World) : World * option (Result error Value) :=
  match cred w with
  | None => (w, None)
  | Some c =>
      if isExpired c then
        let '(fs, res) := SessionTokenRetrieve env (c_session c) (c_provider c) (files w) in
        let w1 := record (EvSessionToken (c_session c) (c_provider c)) (set_files fs w) in
        match res with
        | Err e => (w1, Some (Err e))
        | Ok (v, expiry) => (set_cred (Some (retrieved c v expiry)) w1, Some (Ok v))
        end
      else (w, Some (Ok (c_creds c)))
  end.

(** [writeResponse(w, r, body, code)].  [ct] is the Content-Type header set
    on the response writer before the call (empty when none is set). *)
Definition writeResponse (ct : string) (text : string) (c : Z) : Response :=
  let c' := if (c <? 100)%Z then StatusOK else c in
  let ct' := if (String.length ct <? 1)%nat then "text/plain" else ct in
  {| status := c'; content_type := ct';
     content_length := Itoa (String.length text); body := text |}.

Definition cacheFile (w : World) (p : string) : string :=
  if (0 <? String.length (cacheDir w))%nat && (0 <? String.length p)%nat
  then filepath_Join env (cacheDir w) (".aws_session_token_" ++ p)
  else EmptyString.

(** The option function that both [profileHandler] and [mfaHandler] pass to
    [NewSessionCredentials]; it reads [role], which must not be nil. *)
Definition sessionProvider (w : World) (ro : AwsConfig) (token : string)
  : SessionTokenProvider :=
  let cf := cacheFile w (SourceProfile ro) in
  {| Duration := SessionDuration ro;
     SerialNumber := MfaSerial ro;
     TokenCode := token;
     Cache := if (0 <? String.length cf)%nat then Some cf else None |}.

Definition getProfileConfig (w : World) (r : option Reader)
  : World * Result handlerError AwsConfig :=
  match r with
  | None => (w, Err (newHandlerError "nil reader" StatusInternalServerError))
  | Some rd =>
      let '(b, err) := Read rd profileBufferLen in
      if read_failed err
      then (w, Err (newHandlerError "Error reading request data" StatusInternalServerError))
      else
        let w1 := set_profile b w in
        match ResolveConfig env (profile w1) with
        | Err _ =>
            (w1, Err (newHandlerError "Error resolving profile config" StatusInternalServerError))
        | Ok p => (w1, Ok p)
        end
  end.

Definition sendProfile (w : World) : Response :=
  writeResponse EmptyString (profile w) StatusOK.

Definition getMfa (r : option Reader) : Result handlerError string :=
  match r with
  | None => Err (newHandlerError "nil reader" StatusInternalServerError)
  | Some rd =>
      let mfaLen := 6%nat in
      let '(b, err) := Read rd mfaBufferLen in
      if read_failed err
      then Err (newHandlerError "Error reading request data" StatusInternalServerError)
      else if (String.length b <? mfaLen)%nat
      then Err (newHandlerError "Invalid MFA Code" StatusUnauthorized)
      else Ok (substring 0 mfaLen b)
  end.

(** [updateSession(p)].  The second component is [None] when
    [session.Must] panics. *)
Definition updateSession (w : World) (p : string) : World * option (Result error unit) :=
  let sc := match s w with
            | Some se => Config se
            | None => {| CredentialsChainVerboseErrors := true;
                         LogLevelDebug := logDebug w |}
            end in
  let o := {| opt_Config := sc; opt_Profile := p |} in
  let w0 := record (EvNewSession o) w in
  match NewSessionWithOptions env o with
  | Err _ => (w0, None)
  | Ok se =>
      let w1 := set_s (Some se) w0 in
      match usr w1 with
      | Some _ => (w1, Some (Ok tt))
      | None =>
          let w2 := record (EvGetCallerIdentity se) w1 in
          match GetCallerIdentity env se with
          | Err e => (w2, Some (Err e))
          | Ok u => (set_usr (Some u) w2, Some (Ok tt))
          end
      end
  end.

(** The type switch of [profileHandler] on the error of [cred.Get()]. *)
Definition mfaRequired (e : error) : bool :=
  match e with
  | ErrMfaRequired => true
  | AwsError c m =>
      String.eqb c "AccessDenied" && String.prefix "MultiFactorAuthentication failed" m
  | OtherError _ => false
  end.

(** [role == nil || p.SourceProfile != role.SourceProfile]. *)
Definition sourceChanged (w : World) (p : AwsConfig) : bool :=
  match role w with
  | None => true
  | Some ro => negb (String.eqb (SourceProfile p) (SourceProfile ro))
  end.

(** Lines 297 to 314 of [profileHandler]: the session is updated when the
    source profile changes, [role] and [cred] are replaced, and the new
    credentials are fetched.  [None] is a panic. *)
Definition establishSession (w : World) (p : AwsConfig)
  : World * option (Result error Value) :=
  let '(w2, updated) :=
    if sourceChanged w p then updateSession w (SourceProfile p)
    else (w, Some (Ok tt)) in
  match updated with
  | None => (w2, None)
  | Some _ =>
      let w3 := set_role (Some p) w2 in
      let c := NewSessionCredentials (s w3) (sessionProvider w3 p EmptyString) in
      cred_Get (set_cred (Some c) w3)
  end.

(** A handler gives the state after the request and the response written;
    no response ([None]) means that the handler panicked. *)
Definition profileHandler (w : World) (r : Request) : World * option Response :=
  if String.eqb (Method r) MethodPost then
    match getProfileConfig w (Body r) with
    | (w1, Err hErr) => (w1, Some (writeResponse EmptyString (Error hErr) (code hErr)))
    | (w1, Ok p) =>
        match establishSession w1 p with
        | (w5, None) => (w5, None)
        | (w5, Some (Err e)) =>
            if mfaRequired e
            then (w5, Some (writeResponse EmptyString "MFA code required" StatusUnauthorized))
            else (w5, Some (writeResponse EmptyString "Error getting session credentials"
                                          StatusInternalServerError))
        | (w5, Some (Ok _)) =>
            match cred w5 with
            | None => (w5, None)
            | Some c' =>
                (w5, Some (writeResponse EmptyString (Local_String env (ExpiresAt c'))
                                         StatusOK))
            end
        end
    end
  else (w, Some (sendProfile w)).

Definition mfaHandler (w : World) (r : Request) : World * option Response :=
  match getMfa (Body r) with
  | Err e => (w, Some (writeResponse EmptyString (Error e) (code e)))
  | Ok mfa =>
      match role w with
      | None => (w, None)
      | Some ro =>
          let c := NewSessionCredentials (s w) (sessionProvider w ro mfa) in
          let w1 := set_cred (Some c) w in
          match cred_Get w1 with
          | (w2, None) => (w2, None)
          | (w2, Some (Err _)) =>
              (w2, Some (writeResponse EmptyString "Error getting session credentials"
                                       StatusInternalServerError))
          | (w2, Some (Ok _)) =>
              match cred w2 with
              | None => (w2, None)
              | Some c' =>
                  (w2, Some (writeResponse EmptyString (Local_String env (ExpiresAt c'))
                                           StatusOK))
              end
          end
      end
  end.

(** The value that [assumeRole] serialises, from the value retrieved and the
    two clock readings. *)
Definition metadataOutput (v : Value) (t1 t2 : Z) : ec2MetadataOutput :=
  {| o_Code := "Success";
     o_LastUpdated := Format_RFC3339 env t1;
     o_Type := "AWS-HMAC";
     o_AccessKeyId := AccessKeyID v;
     o_SecretAccessKey := SecretAccessKey v;
     o_Token := SessionToken v;
     o_Expiration :=
       Format_RFC3339 env (time_Add (time_Add t2 (AssumeRoleMinDuration env)) (1 * Second)%Z) |}.

(** [assumeRole()].  It dereferences [role], [s] and [usr]: a nil one is a
    panic ([None]). *)
Definition assumeRole (w : World) : World * option (Result error string) :=
  match role w, s w, usr w with
  | Some ro, Some se, Some u =>
      let pv := {| ar_RoleArn := RoleArn ro;
                   ar_Duration := AssumeRoleDefaultDuration env;
                   ar_ExternalID := ExternalID ro;
                   ar_RoleSessionName := UserName u |} in
      let '(anew, fs, res) := AssumeRoleGet env se (cred w) pv (files w) in
      let w1 := record (EvAssumeRole se pv) (set_files fs (set_cred (refreshed (cred w) anew) w)) in
      match res with
      | Err e => (w1, Some (Err e))
      | Ok (v, _) =>
          let '(t1, w2) := time_Now w1 in
          let '(t2, w3) := time_Now w2 in
          let output := metadataOutput v t1 t2 in
          match json_Marshal env output with
          | Err e => (w3, Some (Err e))
          | Ok j => (w3, Some (Ok j))
          end
      end
  | _, _, _ => (w, None)
  end.

Definition credHandler (w : World) (r : Request) : World * option Response :=
  let p := tail (Split_slash (Path r)) in
  match last p with
  | None => (w, None)
  | Some seg =>
      if (String.length seg <? 1)%nat then (w, Some (sendProfile w))
      else
        match assumeRole w with
        | (w1, None) => (w1, None)
        | (w1, Some (Err _)) =>
            (w1, Some (writeResponse EmptyString "Error getting role credentials"
                                     StatusInternalServerError))
        | (w1, Some (Ok b)) =>
            (w1, Some (writeResponse "application/json" b StatusOK))
        end
  end.

Definition refreshHandler (w : World) (r : Request) : World * option Response :=
  let w' :=
    match String.eqb (Method r) MethodPost, cred w with
    | true, Some c =>
        let w1 := set_cred (Some (Expire c)) w in
        match role w1 with
        | Some ro =>
            let cf := cacheFile w1 (SourceProfile ro) in
            if (0 <? String.length cf)%nat then os_Remove cf w1 else w1
        | None => w1
        end
    | _, _ => w
    end in
  (w', Some (writeResponse EmptyString "success" StatusOK)).

End Handlers.

(** ** A concrete setting

    Stand-ins for the collaborators, to run the handlers on concrete
    requests: every profile but [missing] resolves, [other] has the source
    profile [alt] and the others [base], [secure] has an MFA device; the
    session token provider asks for a code when a device is set and no code
    is given, and stores what it retrieves in its cache file. *)
Definition example_identity : AwsIdentity :=
  {| Account := "123456789012"; UserName := "alice" |}.

Definition example_config (name : string) : AwsConfig :=
  {| SourceProfile := if String.eqb name "other" then "alt" else "base";
     RoleArn := "arn:aws:iam::123456789012:role/" ++ name;
     MfaSerial := if String.eqb name "secure"
                  then "arn:aws:iam::123456789012:mfa/alice" else EmptyString;
     ExternalID := EmptyString;
     SessionDuration := (43200 * Second)%Z |}.

Definition example_value : Value :=
  {| AccessKeyID := "ASIAEXAMPLE"; SecretAccessKey := "secret"; SessionToken := "token" |}.

Definition seconds (t : Z) : string := NilZero.string_of_int (Z.to_int (t / Second)).

Definition example_env : Env :=
  {| ResolveConfig := fun name =>
       if String.eqb name "missing" then Err (OtherError "profile not found")
       else Ok (example_config name);
     NewSessionWithOptions := fun o =>
       Ok {| Config := opt_Config o; Profile := opt_Profile o |};
     GetCallerIdentity := fun _ => Ok example_identity;
     SessionTokenRetrieve := fun _ pv fs =>
       if (0 <? String.length (SerialNumber pv))%nat
          && (String.length (TokenCode pv) =? 0)%nat
       then (fs, Err ErrMfaRequired)
       else (match Cache pv with Some path => fs ∪ {[ path ]} | None => fs end,
             Ok (example_value, (1700043200 * Second)%Z));
     AssumeRoleGet := fun _ _ _ fs =>
       (None, fs, Ok (example_value, (1700003600 * Second)%Z));
     SessionTokenIsExpired := fun _ _ => false;
     AssumeRoleDefaultDuration := (3600 * Second)%Z;
     AssumeRoleMinDuration := (900 * Second)%Z;
     filepath_Join := fun d f => d ++ "/" ++ f;
     clock := fun n => ((1700000000 + Z.of_nat n) * Second)%Z;
     Format_RFC3339 := seconds;
     Local_String := seconds;
     json_Marshal := fun o =>
       Ok (o_AccessKeyId o ++ " " ++ o_LastUpdated o ++ " " ++ o_Expiration o) |}.

(** The state after start-up without an initial profile, with and without
    a cache directory. *)
Definition initial_world (dir : string) : World :=
  {| profile := EmptyString; role := None; s := None; cred := None; usr := None;
     cacheDir := dir; logDebug := false; files := ∅; ticks := 0; trace := [] |}.

Definition post (path text : string) : Request :=
  {| Method := MethodPost; Path := path; Body := Some (strings_NewReader text) |}.

Definition get (path : string) : Request :=
  {| Method := MethodGet; Path := path; Body := Some (strings_NewReader EmptyString) |}.

(** The state after [POST /profile] with body [dev]. *)
Definition dev_world (dir : string) : World :=
  fst (profileHandler example_env (initial_world dir) (post ProfilePath "dev")).

(** A plain text response. *)
Definition response (c : Z) (len text : string) : Response :=
  {| status := c; content_type := "text/plain"; content_length := len; body := text |}.

(** The options that [updateSession] passes to [session.NewSessionWithOptions]. *)
Definition sessionOptions (w : World) (p : AwsConfig) : Options :=
  {| opt_Config := match s w with
                   | Some se => Config se
                   | None => {| CredentialsChainVerboseErrors := true;
                                LogLevelDebug := logDebug w |}
                   end;
     opt_Profile := SourceProfile p |}.

(** The states of a running server: [cred] is nil when the handlers are
    registered, and every request is served by one of the handlers. *)
Inductive handles (env : Env) (w : World) : World -> Prop :=
| handles_profile (r : Request) : handles env w (fst (profileHandler env w r))
| handles_mfa (r : Request) : handles env w (fst (mfaHandler env w r))
| handles_cred (r : Request) : handles env w (fst (credHandler env w r))
| handles_refresh (r : Request) : handles env w (fst (refreshHandler env w r)).

Inductive reachable (env : Env) : World -> Prop :=
| reachable_start (w : World) : cred w = None -> reachable env w
| reachable_step (w w' : World) :
    reachable env w -> handles env w w' -> reachable env w'.

(** Credentials are held together with the role they were made for, and
    their provider caches in the cache file of that role. *)
Definition credentialsOfRole (env : Env) (w : World) : Prop :=
  forall c, cred w = Some c ->
    exists ro, role w = Some ro
               /\ Cache (c_provider c) = Cache (sessionProvider env w ro EmptyString).

(** The number of retrievals asked of the session token provider. *)
Definition sessionTokenRequests (t : list Event) : nat :=
  List.length (List.filter (fun e => match e with EvSessionToken _ _ => true | _ => false end) t).

(** The reading of section 4.2 under which a switch to a profile with the
    same source profile keeps the session credentials and asks the session
    token provider for nothing. *)
Definition same_source_reuses_credentials : Prop :=
  forall (env : Env) (w w1 : World) (r : Request) (p ro : AwsConfig),
    Method r = MethodPost ->
    getProfileConfig env w (Body r) = (w1, Ok p) ->
    role w = Some ro ->
    SourceProfile p = SourceProfile ro ->
    cred (fst (profileHandler env w r)) = cred w
    /\ sessionTokenRequests (trace (fst (profileHandler env w r)))
       = sessionTokenRequests (trace w).

(** The signal for an MFA code, in the words of section 4.2. *)
Definition mfa_signal (e : error) : Prop :=
  e = ErrMfaRequired
  \/ exists m, e = AwsError "AccessDenied" m
               /\ String.prefix "MultiFactorAuthentication failed" m = true.

(** ** Options, the role list and the initial profile *)

(** [config.ConfigResolver] as far as [listRoles] uses it, and the level of
    a [simple_logger.Logger]. *)
Record ConfigResolver : Type := {
  ListProfiles : bool -> list string
}.

Record Logger : Type := {
  LevelDebug : bool
}.

(** [EC2MetadataInput]. *)
Record EC2MetadataInput : Type := {
  in_Config : option AwsConfig;
  InitialProfile : string;
  in_Logger : option Logger;
  in_Session : option Session;
  SessionCacheDir : string;
  User : option AwsIdentity
}.

(** What [handleOptions] and [listRoleHandler] call: [os.UserCacheDir]
    (which returns the empty string with its error),
    [config.NewConfigResolver(nil)], [simple_logger.StdLogger], and
    [json.Marshal] on a list of strings. *)
Record Host : Type := {
  os_UserCacheDir : Result error string;
  NewConfigResolver : Result error ConfigResolver;
  StdLogger : Logger;
  json_Marshal_strings : list string -> Result error string
}.

(** The package variables with [cfg], which the handlers of the claims do
    not test for nil. *)
Record Service : Type := {
  world : World;
  cfg : option ConfigResolver
}.

(** [handleOptions(opts)], for [opts] not nil.  The variables are assigned
    before the resolver is made: they keep their new values when the
    function returns the error of [config.NewConfigResolver]. *)
Definition handleOptions (h : Host) (sv : Service) (opts : EC2MetadataInput)
  : Service * option error :=
  let lg := match in_Logger opts with
            | Some l => l
            | None => StdLogger h
            end in
  let dir := if (String.length (SessionCacheDir opts) <? 1)%nat
             then match os_UserCacheDir h with
                  | Ok d => d
                  | Err _ => EmptyString
                  end
             else SessionCacheDir opts in
  let w := {| profile := InitialProfile opts; role := in_Config opts;
              s := in_Session opts; cred := cred (world sv); usr := User opts;
              cacheDir := dir; logDebug := LevelDebug lg;
              files := files (world sv); ticks := ticks (world sv);
              trace := trace (world sv) |} in
  match NewConfigResolver h with
  | Err e => ({| world := w; cfg := cfg sv |}, Some e)
  | Ok cf => ({| world := w; cfg := Some cf |}, None)
  end.

Definition listRoles (sv : Service) : list string :=
  match cfg sv with
  | Some c => ListProfiles c true
  | None => []
  end.

Definition listRoleHandler (h : Host) (sv : Service) (r : Request)
  : Service * option Response :=
  match json_Marshal_strings h (listRoles sv) with
  | Err _ =>
      (sv, Some (writeResponse EmptyString "error building role list"
                               StatusInternalServerError))
  | Ok b => (sv, Some (writeResponse "application/json" b StatusOK))
  end.

(** Lines 154 to 166 of [NewEC2MetadataService]: with an initial profile,
    the service sends itself a POST to [ProfilePath] whose body is the
    profile, and drops the answer.  [None] is a panic of the handler, which
    nothing recovers here. *)
Definition initialProfile (env : Env) (w : World) : option World :=
  if (String.length (profile w) <? 1)%nat then Some w
  else
    let r := {| Method := MethodPost; Path := ProfilePath;
                Body := Some (strings_NewReader (profile w)) |} in
    match profileHandler env w r with
    | (w', Some _) => Some w'
    | (_, None) => None
    end.

(** The part of the state that no handler writes, the identity once it is
    known, and the calls made: a list [t] of new calls, none of them for the
    identity when it is known. *)
Definition kept (w w' : World) : Prop :=
  cacheDir w' = cacheDir w
  /\ logDebug w' = logDebug w
  /\ (ticks w <= ticks w')%nat
  /\ (forall u, usr w = Some u -> usr w' = Some u)
  /\ exists t, trace w' = (trace w ++ t)%list
               /\ (usr w <> None -> forall se, ~ In (EvGetCallerIdentity se) t).


(** The concrete setting, with an identity lookup that fails. *)
Definition anonymous_env : Env :=
  {| ResolveConfig := ResolveConfig example_env;
     NewSessionWithOptions := NewSessionWithOptions example_env;
     GetCallerIdentity := fun _ => Err (AwsError "AccessDenied" "not authorized");
     SessionTokenRetrieve := SessionTokenRetrieve example_env;
     AssumeRoleGet := AssumeRoleGet example_env;
     SessionTokenIsExpired := SessionTokenIsExpired example_env;
     AssumeRoleDefaultDuration := AssumeRoleDefaultDuration example_env;
     AssumeRoleMinDuration := AssumeRoleMinDuration example_env;
     filepath_Join := filepath_Join example_env;
     clock := clock example_env;
     Format_RFC3339 := Format_RFC3339 example_env;
     Local_String := Local_String example_env;
     json_Marshal := json_Marshal example_env |}.

(** A response as [writeResponse] leaves it: the Content-Length is the
    decimal length of the body. *)
Definition sized (resp : Response) : Prop :=
  content_length resp = Itoa (String.length (body resp)).

(** A response of the service: sized, with one of three statuses, and typed
    as JSON only when the status is 200. *)
Definition regular (resp : Response) : Prop :=
  sized resp
  /\ (status resp = 200%Z \/ status resp = 401%Z \/ status resp = 500%Z)
  /\ (content_type resp = "text/plain"
      \/ (content_type resp = "application/json" /\ status resp = 200%Z)).

(** [text] ends with a path segment [seg]: a slash, then [seg], which has
    no slash. *)
Fixpoint no_slash (text : string) : bool :=
  match text with
  | EmptyString => true
  | String c rest => negb (Ascii.eqb c "/") && no_slash rest
  end.

End Metadata.

(* ===================================================================== *)
(** * Properties of role discovery *)
(* ===================================================================== *)

Module UtilFacts.
Import Util.

(** ** The order on strings *)

Lemma ascii_compare_refl (a : ascii) : Ascii.compare a a = Eq.
Proof. unfold Ascii.compare. apply N.compare_refl. Qed.

Lemma ascii_compare_lt_trans (a b c : ascii) :
  Ascii.compare a b = Lt -> Ascii.compare b c = Lt -> Ascii.compare a c = Lt.
Proof.
  unfold Ascii.compare. rewrite !N.compare_lt_iff. apply N.lt_trans.
Qed.

Lemma str_lt_trans (x y z : string) : str_lt x y -> str_lt y z -> str_lt x z.
Proof.
  unfold str_lt. revert y z.
  induction x as [|a x IH]; intros [|b y] [|c z]; simpl; try congruence.
  destruct (Ascii.compare a b) eqn:Hab; try discriminate.
  - apply Ascii.compare_eq_iff in Hab. subst b.
    destruct (Ascii.compare a c); try congruence. apply IH.
  - intros _. destruct (Ascii.compare b c) eqn:Hbc; try discriminate.
    + apply Ascii.compare_eq_iff in Hbc. subst c. now rewrite Hab.
    + intros _. now rewrite (ascii_compare_lt_trans a b c).
Qed.

Lemma str_lt_irrefl (x : string) : ~ str_lt x x.
Proof.
  unfold str_lt. induction x as [|a x IH]; simpl; [discriminate|].
  now rewrite ascii_compare_refl.
Qed.

Lemma leb_false_lt (x y : string) : String.leb x y = false -> str_lt y x.
Proof.
  unfold String.leb, str_lt. rewrite (String.compare_antisym x y).
  destruct (String.compare y x); simpl; congruence.
Qed.

Lemma leb_true_lt (x y : string) : String.leb x y = true -> x <> y -> str_lt x y.
Proof.
  unfold String.leb, str_lt. intros H Hne.
  destruct (String.compare x y) eqn:Hc; try congruence.
  apply String.compare_eq_iff in Hc. contradiction.
Qed.

(** ** Sorting *)

Lemma insert_sorted_In (a x : string) (l : list string) :
  In x (insert_sorted a l) <-> x = a \/ In x l.
Proof.
  induction l as [|y l IH]; simpl.
  - intuition.
  - destruct (String.leb a y); simpl; rewrite ?IH; intuition.
Qed.

Lemma sort_strings_In (x : string) (l : list string) :
  In x (sort_strings l) <-> In x l.
Proof.
  induction l as [|a l IH]; simpl; [tauto|].
  rewrite insert_sorted_In, IH. intuition.
Qed.

Lemma insert_sorted_strict (a : string) (l : list string) :
  StronglySorted str_lt l -> ~ In a l -> StronglySorted str_lt (insert_sorted a l).
Proof.
  induction 1 as [|y l Hs IH Hy]; intros Hnot; simpl.
  - repeat constructor.
  - destruct (String.leb a y) eqn:Hle.
    + assert (Hay : str_lt a y).
      { apply leb_true_lt; [assumption|]. intros ->. apply Hnot. now left. }
      constructor; [now constructor|].
      constructor; [assumption|].
      rewrite List.Forall_forall in Hy |- *. intros z Hz.
      apply (str_lt_trans a y z); auto.
    + constructor.
      * apply IH. intros Hin. apply Hnot. now right.
      * rewrite List.Forall_forall in Hy |- *. intros z Hz.
        apply insert_sorted_In in Hz. destruct Hz as [->|Hz]; [|auto].
        now apply leb_false_lt.
Qed.

Lemma sort_strings_strict (l : list string) :
  NoDup l -> StronglySorted str_lt (sort_strings l).
Proof.
  induction 1 as [|a l Hnot Hnd IH]; simpl; [constructor|].
  apply insert_sorted_strict; [assumption|].
  rewrite sort_strings_In. now rewrite <- list_elem_of_In.
Qed.

Lemma strict_sorted_NoDup (l : list string) :
  StronglySorted str_lt l -> NoDup l.
Proof.
  induction 1 as [|a l Hs IH Ha]; constructor; [|assumption].
  rewrite list_elem_of_In. intros Hin.
  rewrite List.Forall_forall in Ha. exact (str_lt_irrefl a (Ha a Hin)).
Qed.

Lemma Dedup_In (r : Roles) (x : string) : In x (Dedup r) <-> In x (elems r).
Proof.
  unfold Dedup. rewrite sort_strings_In, <- !list_elem_of_In.
  apply elem_of_remove_dups.
Qed.

Lemma Dedup_strict (r : Roles) : StronglySorted str_lt (Dedup r).
Proof. apply sort_strings_strict, NoDup_remove_dups. Qed.

(** C2.  For every list of role references, nil and empty included, [Dedup]
    returns its distinct elements in ascending byte order: the result is
    strictly ascending (so it has no duplicate) and has the elements of the
    input, no more and no fewer.  It returns a plain sequence, there is no
    error result.  The list of the example gives mock1 to mock4, and the
    empty and the nil list give the empty set. *)
Theorem Dedup_sorted_distinct (r : Roles) :
  StronglySorted str_lt (Dedup r)
  /\ NoDup (Dedup r)
  /\ (forall x, In x (Dedup r) <-> In x (elems r))
  /\ Dedup example_roles = ["mock1"; "mock2"; "mock3"; "mock4"]
  /\ Dedup (Some []) = []
  /\ Dedup None = [].
Proof.
  split; [apply Dedup_strict|].
  split; [apply strict_sorted_NoDup, Dedup_strict|].
  split; [intros x; apply Dedup_In|].
  repeat split; vm_compute; reflexivity.
Qed.

(** ** Policy documents *)

Lemma action_allows_spec (action : option json) :
  action_allows action = true <-> names_assume_role action.
Proof.
  unfold names_assume_role, action_allows, AssumeRoleAction.
  destruct action as [[| | |a|items|]|]; split;
    try discriminate;
    try (intros [H|[items' [H _]]]; discriminate).
  - intros H. apply String.eqb_eq in H. subst. now left.
  - intros [H|[items' [H _]]]; [|discriminate].
    injection H as ->. apply String.eqb_refl.
  - intros H. right. exists items. split; [reflexivity|].
    apply existsb_exists in H. destruct H as [j [Hin Hj]].
    destruct j; try discriminate. apply String.eqb_eq in Hj. now subst.
  - intros [H|[items' [H Hin]]]; [discriminate|].
    injection H as ->. apply existsb_exists.
    eexists. split; [exact Hin|]. apply String.eqb_refl.
Qed.

Lemma resource_values_spec (r : string) (resource : option json) :
  In r (resource_values resource) <-> resource_of r resource.
Proof.
  unfold resource_of, resource_values.
  destruct resource as [[| | |a|items|]|]; simpl; split;
    try contradiction;
    try (intros [H|[items' [H _]]]; discriminate).
  - intros [->|[]]. now left.
  - intros [H|[items' [H _]]]; [|discriminate]. injection H as ->. now left.
  - intros H. right. exists items. split; [reflexivity|].
    apply in_flat_map in H. destruct H as [j [Hin Hj]].
    destruct j; simpl in Hj; try contradiction.
    destruct Hj as [->|[]]. exact Hin.
  - intros [H|[items' [H Hin]]]; [discriminate|].
    injection H as ->. apply in_flat_map.
    eexists. split; [exact Hin|]. now left.
Qed.

Lemma contributes_spec (stmt : json) :
  contributes stmt = true <-> exists f, allowed_statement stmt f.
Proof.
  unfold allowed_statement. split.
  - destruct stmt as [| | | | |f]; simpl; try discriminate.
    destruct (field "Effect" f) as [[| | |e| |]|] eqn:Hf; try discriminate.
    intros H. apply andb_true_iff in H. destruct H as [He Ha].
    apply String.eqb_eq in He. subst e.
    exists f. split; [reflexivity|]. split; [assumption|].
    now apply action_allows_spec.
  - intros [f [-> [He Ha]]]. simpl. rewrite He.
    apply action_allows_spec in Ha. now rewrite Ha.
Qed.

Lemma statement_roles_In (r : string) (stmt : json) :
  In r (statement_roles stmt) <->
  exists f, allowed_statement stmt f /\ resource_of r (field "Resource" f).
Proof.
  split.
  - intros H. unfold statement_roles in H.
    destruct stmt as [| | | | |f]; try contradiction.
    destruct (contributes (JObject f)) eqn:Hc; [|contradiction].
    apply contributes_spec in Hc. destruct Hc as [f' Hf'].
    assert (f' = f) by (destruct Hf' as [Heq _]; congruence). subst f'.
    exists f. split; [assumption|]. now apply resource_values_spec.
  - intros [f [Hall Hres]].
    assert (Hc : contributes stmt = true) by (apply contributes_spec; eauto).
    destruct Hall as [-> _]. unfold statement_roles. rewrite Hc.
    now apply resource_values_spec.
Qed.

Lemma statement_roles_skip (stmt : json) :
  contributes stmt = false -> statement_roles stmt = [].
Proof.
  unfold statement_roles. destruct stmt; try reflexivity. now intros ->.
Qed.


(** C3.  For every policy text that decodes to an object whose [Statement]
    is a list, [parsePolicy] succeeds, and a role is in the result exactly
    when some statement of the list is an object whose [Effect] equals Allow
    and whose [Action] equals or contains sts:AssumeRole, and the role is
    the [Resource] of that statement or one of the strings of its list.  A
    statement with another [Effect] (Deny, None) contributes nothing.  The
    document of the test suite gives a, x, y, z.  None of this depends on
    which texts that fail to decode are refused. *)
Theorem parsePolicy_contribution
    (strict : Strictness)
    (text : string) (doc : list (string * json)) (stmts : list json) :
  json_Unmarshal text = Ok doc ->
  field "Statement" doc = Some (JArray stmts) ->
  exists roles,
    parsePolicy strict (Some text) = Ok roles
    /\ (forall r, In r roles <->
                  exists stmt f, In stmt stmts /\ allowed_statement stmt f
                                 /\ resource_of r (field "Resource" f))
    /\ (forall stmt f e, In stmt stmts -> stmt = JObject f ->
                         field "Effect" f = Some (JString e) -> e <> "Allow" ->
                         statement_roles stmt = [])
    /\ parsePolicy strict (Some test_good) = Ok ["a"; "x"; "y"; "z"].
Proof.
  intros Hdoc Hst. eexists. split; [|split; [|split]].
  - unfold parsePolicy. rewrite Hdoc. unfold statements. rewrite Hst. reflexivity.
  - intros r. rewrite Dedup_In. simpl. rewrite in_flat_map. split.
    + intros [stmt [Hin Hr]]. apply statement_roles_In in Hr.
      destruct Hr as [f [Hall Hres]]. eauto.
    + intros [stmt [f [Hin [Hall Hres]]]]. exists stmt. split; [assumption|].
      apply statement_roles_In. eauto.
  - intros stmt f e _ -> He Hne. apply statement_roles_skip.
    simpl. rewrite He. apply String.eqb_neq in Hne. now rewrite Hne.
  - vm_compute. reflexivity.
Qed.

Lemma parsePolicy_contribution_witness :
  json_Unmarshal test_good = Ok test_good_doc
  /\ field "Statement" test_good_doc = Some (JArray test_good_statements)
  /\ exists roles,
       parsePolicy strictest (Some test_good) = Ok roles
       /\ (forall r, In r roles <->
                     exists stmt f, In stmt test_good_statements
                                    /\ allowed_statement stmt f
                                    /\ resource_of r (field "Resource" f))
       /\ (forall stmt f e, In stmt test_good_statements -> stmt = JObject f ->
                            field "Effect" f = Some (JString e) -> e <> "Allow" ->
                            statement_roles stmt = [])
       /\ parsePolicy strictest (Some test_good) = Ok ["a"; "x"; "y"; "z"].
Proof.
  split; [vm_compute; reflexivity|].
  split; [vm_compute; reflexivity|].
  apply (parsePolicy_contribution strictest test_good test_good_doc test_good_statements);
    vm_compute; reflexivity.
Defined.




(** What the sources leave open: a text that is not JSON and is not among the
    documents of the test suite is an error under one way of drawing the line
    and gives the empty role set under the other. *)
Lemma parsePolicy_open_brace :
  json_decode open_brace = None
  /\ parsePolicy strictest (Some open_brace) = Err InvalidDocument
  /\ parsePolicy lenient (Some open_brace) = Ok [].
Proof. repeat split; vm_compute; reflexivity. Qed.




End UtilFacts.

(* ===================================================================== *)
(** * Properties of the metadata service *)
(* ===================================================================== *)

Module MetadataFacts.
Import Metadata.

Ltac post_method H := rewrite H; change (String.eqb MethodPost MethodPost) with true; cbv iota.

(** ** Readers *)

Lemma substring_all (text : string) (n : nat) :
  (String.length text <= n)%nat -> substring 0 n text = text.
Proof.
  revert n. induction text as [|c text IH]; intros [|n] H; simpl in *;
    try reflexivity; try lia.
  f_equal. apply IH. lia.
Qed.

Lemma length_substring_le (text : string) (n : nat) :
  (String.length (substring 0 n text) <= String.length text)%nat.
Proof.
  revert n. induction text as [|c text IH]; intros [|n]; simpl; try lia.
  specialize (IH n). lia.
Qed.

(** The reader of [strings.NewReader] delivers the text whole to a buffer
    that is large enough, and never fails. *)
Lemma Read_strings_NewReader (text : string) (size : nat) :
  (String.length text <= size)%nat ->
  fst (Read (strings_NewReader text) size) = text
  /\ read_failed (snd (Read (strings_NewReader text) size)) = false.
Proof.
  intros H. unfold Read, strings_NewReader. simpl. split.
  - now rewrite !substring_all by (rewrite ?substring_all; assumption).
  - now destruct (Nat.eqb (String.length text) 0).
Qed.

(** ** The state *)

Lemma cacheFile_cacheDir (env : Env) (w w' : World) (p : string) :
  cacheDir w' = cacheDir w -> cacheFile env w' p = cacheFile env w p.
Proof. unfold cacheFile. now intros ->. Qed.

(** What [getProfileConfig] does to the state: [profile] is set to the bytes
    read, and nothing else changes. *)
Lemma getProfileConfig_ok (env : Env) (w w1 : World) (body : option Reader) (p : AwsConfig) :
  getProfileConfig env w body = (w1, Ok p) ->
  exists rd, body = Some rd
             /\ w1 = set_profile (fst (Read rd profileBufferLen)) w
             /\ ResolveConfig env (fst (Read rd profileBufferLen)) = Ok p.
Proof.
  unfold getProfileConfig. destruct body as [rd|]; [|discriminate].
  unfold Read. cbn [fst snd profile set_profile].
  destruct (read_failed _); [discriminate|].
  destruct (ResolveConfig env _) as [p'|] eqn:Hres; [|discriminate].
  intros [= <- <-]. exists rd. split; [reflexivity|]. split; [reflexivity|exact Hres].
Qed.

(** The state that [POST /profile] leaves is the one that the session step
    leaves. *)
Lemma profileHandler_fst (env : Env) (w w1 : World) (r : Request) (p : AwsConfig) :
  Method r = MethodPost ->
  getProfileConfig env w (Body r) = (w1, Ok p) ->
  fst (profileHandler env w r) = fst (establishSession env w1 p).
Proof.
  intros Hm Hcfg. unfold profileHandler. post_method Hm. rewrite Hcfg.
  destruct (establishSession env w1 p) as [w5 [[v|e]|]]; simpl.
  - now destruct (cred w5).
  - now destruct (mfaRequired e).
  - reflexivity.
Qed.

(** [cred.Get()] on credentials that were just made: the provider is asked,
    once, and only [cred] and the files may change. *)
Lemma cred_Get_fresh (env : Env) (w : World) (se : option Session) (pv : SessionTokenProvider) :
  cred w = Some (NewSessionCredentials se pv) ->
  let w' := fst (cred_Get env w) in
  trace w' = (trace w ++ [EvSessionToken se pv])%list
  /\ profile w' = profile w /\ role w' = role w /\ s w' = s w /\ usr w' = usr w
  /\ (exists c, cred w' = Some c /\ c_provider c = pv /\ c_session c = se)
  /\ snd (cred_Get env w) <> None
  /\ cacheDir w' = cacheDir w.
Proof.
  intros Hc. unfold cred_Get. rewrite Hc. simpl.
  destruct (SessionTokenRetrieve env se pv (files w)) as [fs [[v expiry]|e]]; simpl;
    split_and!; try reflexivity; try discriminate; eauto.
Qed.

Lemma refreshHandler_idle (env : Env) (w : World) (r : Request) :
  Method r <> MethodPost \/ cred w = None ->
  refreshHandler env w r = (w, Some (response 200 "7" "success")).
Proof.
  intros H. unfold refreshHandler.
  destruct (String.eqb (Method r) MethodPost) eqn:Hm.
  - apply String.eqb_eq in Hm. destruct H as [H|H]; [contradiction|].
    now rewrite H.
  - reflexivity.
Qed.

(** The state that a POST to /refresh leaves when credentials [c] are
    active. *)
Lemma refreshHandler_post (env : Env) (w : World) (r : Request) (c : Credentials) :
  Method r = MethodPost -> cred w = Some c ->
  fst (refreshHandler env w r) =
  let w1 := set_cred (Some (Expire c)) w in
  match role w with
  | Some ro =>
      if (0 <? String.length (cacheFile env w (SourceProfile ro)))%nat
      then os_Remove (cacheFile env w (SourceProfile ro)) w1 else w1
  | None => w1
  end.
Proof.
  intros Hm Hc. unfold refreshHandler. post_method Hm. rewrite Hc. simpl.
  destruct (role w) as [ro|]; [|reflexivity].
  now rewrite (cacheFile_cacheDir env w (set_cred (Some (Expire c)) w)).
Qed.

Lemma sessionProvider_cacheDir (env : Env) (w w' : World) (ro : AwsConfig) (t t' : string) :
  cacheDir w' = cacheDir w ->
  Cache (sessionProvider env w' ro t') = Cache (sessionProvider env w ro t).
Proof.
  intros H. unfold sessionProvider. cbn [Cache].
  now rewrite (cacheFile_cacheDir env w w').
Qed.

Lemma credentialsOfRole_frame (env : Env) (w w' : World) :
  cacheDir w' = cacheDir w ->
  role w' = role w ->
  (forall c', cred w' = Some c' ->
              exists c, cred w = Some c /\ c_provider c' = c_provider c) ->
  credentialsOfRole env w -> credentialsOfRole env w'.
Proof.
  intros Hdir Hrole Hcred Hinv c' Hc'.
  destruct (Hcred c' Hc') as [c [Hc Hpv]].
  destruct (Hinv c Hc) as [ro [Hro Hcache]].
  exists ro. split; [congruence|].
  rewrite Hpv, Hcache. symmetry. now apply sessionProvider_cacheDir.
Qed.

Lemma credentialsOfRole_made (env : Env) (w : World) (ro : AwsConfig) (t : string) :
  role w = Some ro ->
  (exists c, cred w = Some c /\ Cache (c_provider c) = Cache (sessionProvider env w ro t)) ->
  credentialsOfRole env w.
Proof.
  intros Hro [c [Hc Hcache]] c' Hc'. exists ro. split; [assumption|].
  assert (c' = c) by congruence. subst c'. rewrite Hcache.
  now apply sessionProvider_cacheDir.
Qed.

Lemma updateSession_frame (env : Env) (w : World) (p : string) :
  let w' := fst (updateSession env w p) in
  cacheDir w' = cacheDir w /\ role w' = role w /\ cred w' = cred w.
Proof.
  unfold updateSession.
  destruct (NewSessionWithOptions env _) as [se|e]; [|now split_and!].
  cbn [usr set_s record].
  destruct (usr w); [now split_and!|].
  destruct (GetCallerIdentity env se); now split_and!.
Qed.

Lemma establishSession_credentialsOfRole (env : Env) (w : World) (p : AwsConfig) :
  credentialsOfRole env w -> credentialsOfRole env (fst (establishSession env w p)).
Proof.
  intros Hinv. unfold establishSession.
  assert (Hu : exists w2 res,
             (if sourceChanged w p then updateSession env w (SourceProfile p)
              else (w, Some (Ok tt))) = (w2, res)
             /\ cacheDir w2 = cacheDir w /\ role w2 = role w /\ cred w2 = cred w).
  { destruct (sourceChanged w p).
    - destruct (updateSession_frame env w (SourceProfile p)) as (H1 & H2 & H3).
      destruct (updateSession env w (SourceProfile p)) as [w2 res].
      exists w2, res. now split_and!.
    - exists w, (Some (Ok tt)). now split_and!. }
  destruct Hu as (w2 & res & -> & Hdir & Hrole & Hcred).
  destruct res as [res|].
  - match goal with
    | |- credentialsOfRole env (fst (cred_Get env ?w4)) =>
        destruct (cred_Get_fresh env w4 _ _ eq_refl)
          as (_ & _ & Hr & _ & _ & (c & Hc & Hpv & _) & _ & Hd)
    end.
    apply (credentialsOfRole_made env _ p EmptyString); [exact Hr|].
    exists c. split; [exact Hc|]. rewrite Hpv.
    symmetry. apply sessionProvider_cacheDir. exact Hd.
  - apply (credentialsOfRole_frame env w w2); try assumption.
    intros c' Hc'. exists c'. split; [congruence|reflexivity].
Qed.

Lemma getProfileConfig_frame (env : Env) (w : World) (body : option Reader) :
  let w1 := fst (getProfileConfig env w body) in
  cacheDir w1 = cacheDir w /\ role w1 = role w /\ cred w1 = cred w.
Proof.
  unfold getProfileConfig. destruct body as [rd|]; [|now split_and!].
  unfold Read. cbn [fst snd].
  destruct (read_failed _); [now split_and!|].
  destruct (ResolveConfig env _); now split_and!.
Qed.

Lemma handles_credentialsOfRole (env : Env) (w w' : World) :
  handles env w w' -> credentialsOfRole env w -> credentialsOfRole env w'.
Proof.
  intros [r|r|r|r] Hinv.
  - (* profileHandler *)
    unfold profileHandler.
    destruct (String.eqb (Method r) MethodPost); [|exact Hinv].
    destruct (getProfileConfig_frame env w (Body r)) as (Hd & Hr & Hc).
    destruct (getProfileConfig env w (Body r)) as [w1 [p|hErr]]; cbn [fst] in Hd, Hr, Hc.
    + assert (Hinv1 : credentialsOfRole env w1).
      { apply (credentialsOfRole_frame env w w1); try assumption.
        intros c' Hc'. exists c'. split; [congruence|reflexivity]. }
      pose proof (establishSession_credentialsOfRole env w1 p Hinv1) as H5.
      destruct (establishSession env w1 p) as [w5 [[v|e]|]]; cbn [fst] in H5 |- *.
      * now destruct (cred w5).
      * now destruct (mfaRequired e).
      * exact H5.
    + apply (credentialsOfRole_frame env w w1); try assumption.
      intros c' Hc'. exists c'. split; [congruence|reflexivity].
  - (* mfaHandler *)
    unfold mfaHandler. destruct (getMfa (Body r)) as [mfa|e]; [|exact Hinv].
    destruct (role w) as [ro|] eqn:Hro; [|exact Hinv].
    match goal with
    | |- credentialsOfRole env (fst (let (_, _) := cred_Get env ?w1 in _)) =>
        destruct (cred_Get_fresh env w1 _ _ eq_refl)
          as (_ & _ & Hr & _ & _ & (c & Hc & Hpv & _) & _ & Hd);
        assert (H2 : credentialsOfRole env (fst (cred_Get env w1)))
    end.
    { apply (credentialsOfRole_made env _ ro mfa); [exact (eq_trans Hr Hro)|].
      exists c. split; [exact Hc|]. rewrite Hpv.
      symmetry. apply sessionProvider_cacheDir. exact Hd. }
    clear Hr Hc Hd.
    destruct (cred_Get env _) as [w2 [[v|e]|]]; cbn [fst] in H2 |- *;
      [now destruct (cred w2)|exact H2|exact H2].
  - (* credHandler *)
    unfold credHandler. destruct (last _) as [seg|]; [|exact Hinv].
    destruct (String.length seg <? 1)%nat; [exact Hinv|].
    assert (H1 : credentialsOfRole env (fst (assumeRole env w))).
    { unfold assumeRole.
      destruct (role w) as [ro|]; [|exact Hinv].
      destruct (s w) as [se|]; [|exact Hinv].
      destruct (usr w) as [u|]; [|exact Hinv].
      destruct (AssumeRoleGet env se (cred w) _ (files w)) as [[anew fs] res].
      assert (Hf : forall c', refreshed (cred w) anew = Some c' ->
                              exists c, cred w = Some c /\ c_provider c' = c_provider c).
      { intros c'. unfold refreshed.
        destruct (cred w) as [c|]; [|discriminate].
        destruct anew as [[v x]|]; intros [= <-]; eauto. }
      destruct res as [[v x]|e]; cbn [fst time_Now].
      - destruct (json_Marshal env _);
          (apply (credentialsOfRole_frame env w); [reflexivity|reflexivity|exact Hf|exact Hinv]).
      - apply (credentialsOfRole_frame env w); [reflexivity|reflexivity|exact Hf|exact Hinv]. }
    destruct (assumeRole env w) as [w1 [[b|e]|]]; exact H1.
  - (* refreshHandler *)
    destruct (String.eqb (Method r) MethodPost) eqn:Hm.
    + apply String.eqb_eq in Hm. destruct (cred w) as [c|] eqn:Hc.
      * rewrite (refreshHandler_post env w r c Hm Hc). cbv zeta.
        assert (Hf : forall w1, cred w1 = Some (Expire c) ->
                       forall c', cred w1 = Some c' ->
                         exists c0, cred w = Some c0 /\ c_provider c' = c_provider c0).
        { intros w1 H1 c' Hc'. exists c. split; [assumption|].
          assert (c' = Expire c) by congruence. now subst c'. }
        destruct (role w) as [ro|];
          [destruct (0 <? _)%nat|];
          (apply (credentialsOfRole_frame env w);
           [reflexivity|reflexivity|now apply Hf|exact Hinv]).
      * rewrite refreshHandler_idle by now right. exact Hinv.
    + apply String.eqb_neq in Hm.
      rewrite refreshHandler_idle by now left. exact Hinv.
Qed.

(** On every reachable state the credentials belong to the active role. *)
Lemma reachable_credentialsOfRole (env : Env) (w : World) :
  reachable env w -> credentialsOfRole env w.
Proof.
  induction 1 as [w Hnil|w w' _ IH Hstep].
  - intros c Hc. congruence.
  - exact (handles_credentialsOfRole env w w' Hstep IH).
Qed.

(** ** The MFA handler *)

(** C5.  An MFA submission whose body, read without failure, has fewer than
    6 bytes is rejected by [getMfa] with the invalid code condition, which
    [mfaHandler] answers with status 401.  The state is left as it was, the
    record of calls to the identity provider with it, and the outcome does
    not depend on the collaborators: none is called. *)
Theorem mfaHandler_short_code (env : Env) (w : World) (r : Request) (rd : Reader) :
  Body r = Some rd ->
  read_failed (snd (Read rd mfaBufferLen)) = false ->
  (String.length (fst (Read rd mfaBufferLen)) < 6)%nat ->
  getMfa (Body r) = Err (newHandlerError "Invalid MFA Code" StatusUnauthorized)
  /\ mfaHandler env w r = (w, Some (response 401 "16" "Invalid MFA Code"))
  /\ trace (fst (mfaHandler env w r)) = trace w
  /\ (forall env', mfaHandler env' w r = mfaHandler env w r).
Proof.
  intros Hbody Hread Hlen.
  assert (Hmfa : getMfa (Body r)
                 = Err (newHandlerError "Invalid MFA Code" StatusUnauthorized)).
  { unfold getMfa. rewrite Hbody.
    destruct (Read rd mfaBufferLen) as [b err]. simpl in Hread, Hlen. rewrite Hread.
    apply Nat.ltb_lt in Hlen. now rewrite Hlen. }
  assert (Hany : forall env0,
             mfaHandler env0 w r = (w, Some (response 401 "16" "Invalid MFA Code"))).
  { intros env0. unfold mfaHandler. rewrite Hmfa. reflexivity. }
  split; [exact Hmfa|]. split; [apply Hany|].
  split; [now rewrite Hany|].
  intros env'. now rewrite !Hany.
Qed.

Lemma mfaHandler_short_code_witness :
  let w := dev_world ".cache" in
  mfaHandler example_env w (post MfaPath "123")
  = (w, Some (response 401 "16" "Invalid MFA Code")).
Proof.
  intros w.
  apply (mfaHandler_short_code example_env w (post MfaPath "123") (strings_NewReader "123"));
    [reflexivity | reflexivity | simpl; lia].
Defined.

(** ** The refresh handler *)

Lemma remove_twice (fs : gset string) (path : string) :
  fs ∖ {[ path ]} ∖ {[ path ]} = fs ∖ {[ path ]}.
Proof.
  apply set_eq. intros x. rewrite !elem_of_difference. tauto.
Qed.

Lemma removed_absent (fs : gset string) (path : string) : path ∉ fs ∖ {[ path ]}.
Proof.
  rewrite elem_of_difference, elem_of_singleton. tauto.
Qed.

(** C9.  A request to /refresh whose method is not POST, or that arrives when
    no credentials are active, changes nothing: the package variables, the
    files and the record of calls are as before; the answer is still 200
    with the text success. *)
Theorem refreshHandler_frame (env : Env) (w : World) (r : Request) :
  Method r <> MethodPost \/ cred w = None ->
  refreshHandler env w r = (w, Some (response 200 "7" "success")).
Proof. apply refreshHandler_idle. Qed.

Lemma refreshHandler_frame_witness :
  let w := dev_world ".cache" in
  refreshHandler example_env w (get RefreshPath)
  = (w, Some (response 200 "7" "success")).
Proof.
  intros w.
  apply (refreshHandler_frame example_env w (get RefreshPath)).
  left. discriminate.
Defined.

Lemma refreshHandler_fst_idem (env : Env) (w : World) (r : Request) :
  fst (refreshHandler env (fst (refreshHandler env w r)) r) = fst (refreshHandler env w r).
Proof.
  destruct (String.eqb (Method r) MethodPost) eqn:Hm.
  - apply String.eqb_eq in Hm.
    destruct (cred w) as [c|] eqn:Hc.
    + rewrite (refreshHandler_post env w r c Hm Hc). cbv zeta.
      destruct (role w) as [ro|] eqn:Hro.
      * destruct (0 <? String.length (cacheFile env w (SourceProfile ro)))%nat eqn:Hlen.
        -- erewrite refreshHandler_post; [|exact Hm|reflexivity]. cbv zeta.
           change (role (os_Remove _ _)) with (role w). rewrite Hro.
           rewrite (cacheFile_cacheDir env w (os_Remove _ _)) by reflexivity.
           rewrite Hlen. unfold os_Remove, set_files, set_cred. simpl.
           f_equal. apply remove_twice.
        -- erewrite refreshHandler_post; [|exact Hm|reflexivity]. cbv zeta.
           change (role (set_cred _ w)) with (role w). rewrite Hro.
           rewrite (cacheFile_cacheDir env w (set_cred _ w)) by reflexivity.
           now rewrite Hlen.
      * erewrite refreshHandler_post; [|exact Hm|reflexivity]. cbv zeta.
        change (role (set_cred _ w)) with (role w). now rewrite Hro.
    + rewrite (refreshHandler_idle env w r) by now right. cbn [fst].
      rewrite refreshHandler_idle by now right. reflexivity.
  - assert (Hne : Method r <> MethodPost) by now apply String.eqb_neq.
    rewrite (refreshHandler_idle env w r) by now left. cbn [fst].
    rewrite refreshHandler_idle by now left. reflexivity.
Qed.

(** C7.  Every request to /refresh is answered 200 with the text success,
    whatever the state.  A POST with active credentials expires them; with
    an active role, the cache file of its source profile is removed from the
    files and no other file is touched; the other package variables stay.
    On a state that the server can reach, that file is the cache file of the
    provider of the credentials.  The handler is idempotent: the same
    request on the state it leaves gives the same state and the same
    answer. *)
Theorem refreshHandler_success (env : Env) (w : World) (r : Request) :
  snd (refreshHandler env w r) = Some (response 200 "7" "success")
  /\ (forall c, Method r = MethodPost -> cred w = Some c ->
        let w' := fst (refreshHandler env w r) in
        cred w' = Some (Expire c)
        /\ isExpired env (Expire c) = true
        /\ profile w' = profile w /\ role w' = role w /\ s w' = s w
        /\ (role w = None -> files w' = files w)
        /\ (forall ro, role w = Some ro ->
              let cf := cacheFile env w (SourceProfile ro) in
              (cf = EmptyString -> files w' = files w)
              /\ (cf <> EmptyString ->
                  (cf ∉ files w') /\ files w' = files w ∖ {[ cf ]})))
  /\ (forall c path, Method r = MethodPost -> reachable env w -> cred w = Some c ->
        Cache (c_provider c) = Some path ->
        path ∉ files (fst (refreshHandler env w r)))
  /\ refreshHandler env (fst (refreshHandler env w r)) r = refreshHandler env w r.
Proof.
  split; [reflexivity|]. split; [|split].
  2:{ intros c path Hm Hreach Hc Hpath.
      destruct (reachable_credentialsOfRole env w Hreach c Hc) as [ro [Hro Hcache]].
      rewrite (refreshHandler_post env w r c Hm Hc). cbv zeta. rewrite Hro.
      rewrite Hpath in Hcache. unfold sessionProvider in Hcache. cbn [Cache] in Hcache.
      destruct (0 <? String.length (cacheFile env w (SourceProfile ro)))%nat;
        [|discriminate].
      injection Hcache as ->. apply removed_absent. }
  - intros c Hm Hc. cbv zeta. rewrite (refreshHandler_post env w r c Hm Hc). cbv zeta.
    destruct (role w) as [ro|] eqn:Hro.
    + destruct (cacheFile env w (SourceProfile ro)) as [|a cf] eqn:Hcf; simpl.
      * split_and!; try reflexivity; try discriminate; try assumption.
        intros ro' [= <-]. rewrite Hcf.
        split; [reflexivity|congruence].
      * split_and!; try reflexivity; try discriminate; try assumption.
        intros ro' [= <-]. rewrite Hcf.
        split; [intros Hnil; discriminate Hnil|].
        intros _. split; [apply removed_absent|reflexivity].
    + simpl. split_and!; try reflexivity; try assumption.
      intros ro' Hro'. discriminate Hro'.
  - rewrite (surjective_pairing (refreshHandler env (fst (refreshHandler env w r)) r)).
    rewrite (surjective_pairing (refreshHandler env w r)) at 3.
    f_equal. apply refreshHandler_fst_idem.
Qed.

Lemma refreshHandler_success_witness :
  let w := dev_world ".cache" in
  let w' := fst (refreshHandler example_env w (post RefreshPath EmptyString)) in
  (".cache/.aws_session_token_base" ∈ files w)
  /\ (".cache/.aws_session_token_base" ∉ files w')
  /\ files w' = files w ∖ {[ ".cache/.aws_session_token_base" ]}.
Proof.
  intros w w'. split; [vm_compute; reflexivity|].
  assert (Hro : role w = Some (example_config "dev")) by (vm_compute; reflexivity).
  assert (Hc : exists c, cred w = Some c) by (vm_compute; eauto).
  destruct Hc as [c Hc].
  assert (Hcf : cacheFile example_env w (SourceProfile (example_config "dev"))
                = ".cache/.aws_session_token_base") by (vm_compute; reflexivity).
  pose proof (refreshHandler_success example_env w (post RefreshPath EmptyString))
    as [_ [H _]].
  specialize (H c eq_refl Hc). cbv zeta in H.
  destruct H as (_ & _ & _ & _ & _ & _ & Hfiles).
  specialize (Hfiles _ Hro). cbv zeta in Hfiles. rewrite Hcf in Hfiles.
  destruct Hfiles as [_ Hrm]. apply Hrm. discriminate.
Defined.

(** ** The profile handler *)

(** C10.  On POST /profile the variable [profile] is set to the bytes read
    from the body before the configuration is resolved.  When the resolution
    fails, the answer is 500, [profile] keeps the name that failed and all
    the rest of the state is as before; a later request to /profile with
    another method is answered with that name. *)
Theorem profileHandler_failed_profile_kept
    (env : Env) (w : World) (r : Request) (rd : Reader) (e : error) :
  Method r = MethodPost ->
  Body r = Some rd ->
  read_failed (snd (Read rd profileBufferLen)) = false ->
  ResolveConfig env (fst (Read rd profileBufferLen)) = Err e ->
  let name := fst (Read rd profileBufferLen) in
  profileHandler env w r
  = (set_profile name w, Some (response 500 "30" "Error resolving profile config"))
  /\ profile (set_profile name w) = name
  /\ (forall r', Method r' <> MethodPost ->
        profileHandler env (set_profile name w) r'
        = (set_profile name w,
           Some (response 200 (Itoa (String.length name)) name))).
Proof.
  intros Hm Hbody Hread Hres name. split; [|split].
  - unfold profileHandler. post_method Hm.
    unfold getProfileConfig. rewrite Hbody.
    revert Hread Hres. unfold name, Read. cbn [fst snd profile set_profile].
    intros -> Hres. now rewrite Hres.
  - reflexivity.
  - intros r' Hm'. unfold profileHandler.
    apply String.eqb_neq in Hm'. rewrite Hm'. reflexivity.
Qed.

Lemma profileHandler_failed_profile_kept_witness :
  let w := dev_world ".cache" in
  profileHandler example_env w (post ProfilePath "missing")
  = (set_profile "missing" w, Some (response 500 "30" "Error resolving profile config"))
  /\ profileHandler example_env (set_profile "missing" w) (get ProfilePath)
     = (set_profile "missing" w, Some (response 200 "7" "missing")).
Proof.
  intros w.
  pose proof (profileHandler_failed_profile_kept example_env w
                (post ProfilePath "missing") (strings_NewReader "missing")
                (OtherError "profile not found")
                eq_refl eq_refl eq_refl eq_refl) as H.
  cbv zeta in H. destruct H as [H1 [_ H3]]. split.
  - exact H1.
  - apply (H3 (get ProfilePath)). discriminate.
Defined.

Lemma mfaRequired_spec (e : error) : mfaRequired e = true <-> mfa_signal e.
Proof.
  unfold mfa_signal. destruct e as [|c m|t]; simpl; split.
  - now left.
  - reflexivity.
  - intros H. apply andb_true_iff in H. destruct H as [Hc Hm].
    apply String.eqb_eq in Hc. subst c. right. eauto.
  - intros [H|[m' [[= -> ->] Hm]]]; [discriminate|]. now rewrite Hm.
  - discriminate.
  - intros [H|[m' [H _]]]; discriminate.
Qed.

(** C6.  When the session credentials cannot be fetched on POST /profile
    (the error is [e]), the answer is 401 with the text MFA code required
    exactly when [e] is the explicit signal or an AccessDenied error whose
    message starts with MultiFactorAuthentication failed, and it is 500 with
    one fixed text exactly in the other case.  Both answers are constants:
    nothing of [e] is in them. *)
Theorem profileHandler_session_failure
    (env : Env) (w w1 w5 : World) (r : Request) (p : AwsConfig) (e : error) :
  Method r = MethodPost ->
  getProfileConfig env w (Body r) = (w1, Ok p) ->
  establishSession env w1 p = (w5, Some (Err e)) ->
  exists resp,
    profileHandler env w r = (w5, Some resp)
    /\ (resp = response 401 "17" "MFA code required" <-> mfa_signal e)
    /\ (resp = response 500 "33" "Error getting session credentials" <-> ~ mfa_signal e).
Proof.
  intros Hm Hcfg Hget. unfold profileHandler. post_method Hm.
  rewrite Hcfg, Hget. pose proof (mfaRequired_spec e) as Hspec.
  destruct (mfaRequired e); eexists; (split; [reflexivity|]).
  - split; split; try reflexivity; try discriminate.
    + intros _. now apply Hspec.
    + intros Hn. exfalso. apply Hn. now apply Hspec.
  - assert (Hn : ~ mfa_signal e) by (intros Hs; apply Hspec in Hs; discriminate).
    split; split; try reflexivity; try discriminate; try contradiction.
    intros _. exact Hn.
Qed.

Lemma profileHandler_session_failure_witness :
  snd (profileHandler example_env (dev_world ".cache") (post ProfilePath "secure"))
  = Some (response 401 "17" "MFA code required").
Proof.
  set (w := dev_world ".cache").
  set (w1 := set_profile "secure" w).
  set (w5 := fst (establishSession example_env w1 (example_config "secure"))).
  assert (Hcfg : getProfileConfig example_env w (Body (post ProfilePath "secure"))
                 = (w1, Ok (example_config "secure")))
    by (vm_compute; reflexivity).
  assert (Hget : establishSession example_env w1 (example_config "secure")
                 = (w5, Some (Err ErrMfaRequired)))
    by (vm_compute; reflexivity).
  destruct (profileHandler_session_failure example_env w w1 w5
              (post ProfilePath "secure") (example_config "secure") ErrMfaRequired
              eq_refl Hcfg Hget) as [resp [Hresp [H401 _]]].
  rewrite Hresp. cbn [snd]. f_equal. apply H401. now left.
Defined.

(** A profile with the same source profile as the active one is selected on
    a server without cache directory: the session token provider is asked a
    second time.  The switch does not reuse the credentials it holds. *)
Lemma profileHandler_same_source_fetches_again :
  let w := dev_world EmptyString in
  let r := post ProfilePath "prod" in
  role w = Some (example_config "dev")
  /\ getProfileConfig example_env w (Body r)
     = (set_profile "prod" w, Ok (example_config "prod"))
  /\ SourceProfile (example_config "prod") = SourceProfile (example_config "dev")
  /\ sessionTokenRequests (trace w) = 1%nat
  /\ sessionTokenRequests (trace (fst (profileHandler example_env w r))) = 2%nat
  /\ ~ same_source_reuses_credentials.
Proof.
  intros w r.
  assert (Hro : role w = Some (example_config "dev")) by (vm_compute; reflexivity).
  assert (Hcfg : getProfileConfig example_env w (Body r)
                 = (set_profile "prod" w, Ok (example_config "prod")))
    by (vm_compute; reflexivity).
  assert (Hsrc : SourceProfile (example_config "prod")
                 = SourceProfile (example_config "dev")) by reflexivity.
  assert (Hone : sessionTokenRequests (trace w) = 1%nat) by (vm_compute; reflexivity).
  assert (Htwo : sessionTokenRequests (trace (fst (profileHandler example_env w r))) = 2%nat)
    by (vm_compute; reflexivity).
  split_and!; try assumption.
  intros H.
  destruct (H example_env w (set_profile "prod" w) r
              (example_config "prod") (example_config "dev")
              eq_refl Hcfg Hro Hsrc) as [_ Hn].
  rewrite Hone, Htwo in Hn. discriminate.
Qed.

(** C8, amended.  On POST /profile with a profile that resolves to [p]:
    when the source profile of [p] is that of the active role, the SDK
    session [s] and the identity are kept and no session is made; when it
    differs, or no role is active, a session is made for the source profile
    of [p] (and the handler panics if that fails).  In both cases where the
    handler goes on, [role] becomes [p], [cred] is replaced by new
    credentials over the cache file of the source profile, and the session
    token provider is asked for them once. *)
Theorem profileHandler_session_update
    (env : Env) (w w1 : World) (r : Request) (p : AwsConfig) :
  Method r = MethodPost ->
  getProfileConfig env w (Body r) = (w1, Ok p) ->
  let w' := fst (profileHandler env w r) in
  let pv := sessionProvider env w p EmptyString in
  (forall ro, role w = Some ro -> SourceProfile p = SourceProfile ro ->
     s w' = s w /\ usr w' = usr w /\ role w' = Some p
     /\ trace w' = (trace w ++ [EvSessionToken (s w) pv])%list
     /\ exists c, cred w' = Some c /\ c_provider c = pv /\ c_session c = s w)
  /\ (role w = None \/ (exists ro, role w = Some ro /\ SourceProfile p <> SourceProfile ro) ->
      match NewSessionWithOptions env (sessionOptions w p) with
      | Err _ =>
          snd (profileHandler env w r) = None
          /\ trace w' = (trace w ++ [EvNewSession (sessionOptions w p)])%list
          /\ s w' = s w /\ role w' = role w /\ cred w' = cred w
      | Ok se =>
          s w' = Some se /\ role w' = Some p
          /\ trace w' = (trace w ++ EvNewSession (sessionOptions w p)
                            :: match usr w with
                               | Some _ => []
                               | None => [EvGetCallerIdentity se]
                               end ++ [EvSessionToken (Some se) pv])%list
          /\ exists c, cred w' = Some c /\ c_provider c = pv /\ c_session c = Some se
      end).
Proof.
  intros Hm Hcfg w' pv.
  assert (Hw' : w' = fst (establishSession env w1 p))
    by (apply profileHandler_fst; assumption).
  destruct (getProfileConfig_ok env w w1 (Body r) p Hcfg) as [rd [Hbody [Hw1 Hres]]].
  split.
  - intros ro Hro Hsame.
    assert (Hch : sourceChanged w1 p = false).
    { unfold sourceChanged. rewrite Hw1. simpl. rewrite Hro, Hsame.
      now rewrite String.eqb_refl. }
    unfold establishSession in Hw'. rewrite Hch in Hw'.
    destruct (cred_Get_fresh env
                (set_cred (Some (NewSessionCredentials (s (set_role (Some p) w1))
                                   (sessionProvider env (set_role (Some p) w1) p EmptyString)))
                          (set_role (Some p) w1))
                (s (set_role (Some p) w1))
                (sessionProvider env (set_role (Some p) w1) p EmptyString) eq_refl)
      as (Ht & _ & Hr & Hs & Hu & Hc & _ & _).
    rewrite <- Hw' in Ht, Hr, Hs, Hu, Hc. subst w1.
    split_and!; [exact Hs|exact Hu|exact Hr|exact Ht|exact Hc].
  - intros Hdiff.
    assert (Hch : sourceChanged w1 p = true).
    { unfold sourceChanged. rewrite Hw1. simpl.
      destruct Hdiff as [->|[ro [-> Hne]]]; [reflexivity|].
      apply String.eqb_neq in Hne. now rewrite Hne. }
    unfold profileHandler in *. revert Hw'. post_method Hm. rewrite Hcfg.
    unfold establishSession. rewrite Hch. unfold updateSession.
    replace (NewSessionWithOptions env _)
      with (NewSessionWithOptions env (sessionOptions w p))
      by (subst w1; reflexivity).
    destruct (NewSessionWithOptions env (sessionOptions w p)) as [se|e0].
    + cbn [set_s usr s]. subst w1. cbn [record set_profile usr].
      destruct (usr w) as [u|] eqn:Hu.
      * intros Hw'.
        match type of Hw' with
        | _ = fst (cred_Get env ?w0) =>
            destruct (cred_Get_fresh env w0 (Some se) pv eq_refl)
              as (Ht & _ & Hr & Hs & _ & Hc & _ & _)
        end.
        rewrite <- Hw' in Ht, Hr, Hs, Hc.
        split_and!; [exact Hs|exact Hr| |exact Hc].
        rewrite Ht. simpl. now rewrite <- !app_assoc.
      * destruct (GetCallerIdentity env se) as [ident|e1]; intros Hw';
          match type of Hw' with
          | _ = fst (cred_Get env ?w0) =>
              destruct (cred_Get_fresh env w0 (Some se) pv eq_refl)
                as (Ht & _ & Hr & Hs & _ & Hc & _ & _)
          end;
          rewrite <- Hw' in Ht, Hr, Hs, Hc;
          (split_and!; [exact Hs|exact Hr| |exact Hc]);
          rewrite Ht; simpl; now rewrite <- !app_assoc.
    + intros Hw'. simpl in Hw'. subst w1. rewrite Hw'.
      split_and!; reflexivity.
Qed.

Lemma profileHandler_session_update_witness :
  let w := dev_world ".cache" in
  let w' := fst (profileHandler example_env w (post ProfilePath "prod")) in
  s w' = s w
  /\ sessionTokenRequests (trace w') = S (sessionTokenRequests (trace w)).
Proof.
  intros w w'.
  assert (Hro : role w = Some (example_config "dev")) by (vm_compute; reflexivity).
  assert (Hcfg : getProfileConfig example_env w (Body (post ProfilePath "prod"))
                 = (set_profile "prod" w, Ok (example_config "prod")))
    by (vm_compute; reflexivity).
  destruct (profileHandler_session_update example_env w (set_profile "prod" w)
              (post ProfilePath "prod") (example_config "prod") eq_refl Hcfg)
    as [Hsame _].
  destruct (Hsame (example_config "dev") Hro eq_refl) as (Hs & _ & _ & Ht & _).
  split; [exact Hs|].
  fold w' in Ht. rewrite Ht. unfold sessionTokenRequests.
  rewrite List.filter_app, List.length_app. simpl. lia.
Defined.

(** ** Role credentials *)

(** C1.  When [assumeRole] succeeds with the text [j], [j] is the
    serialisation of an output whose [Expiration] is the formatted instant
    [now + AssumeRoleMinDuration + 1 second], where [now] is the clock
    reading taken for that field (the second reading of the call); the
    instant is strictly later than [now + AssumeRoleMinDuration].  The
    expiration [expiry] that came with the credentials plays no part.
    [credHandler] answers a request for a named role with [j]. *)
Theorem assumeRole_expiration (env : Env) (w w' : World) (j : string) :
  assumeRole env w = (w', Some (Ok j)) ->
  let now := clock env (S (ticks w)) in
  exists se pv anew fs v expiry t1,
    AssumeRoleGet env se (cred w) pv (files w) = (anew, fs, Ok (v, expiry))
    /\ json_Marshal env (metadataOutput env v t1 now) = Ok j
    /\ o_Expiration (metadataOutput env v t1 now)
       = Format_RFC3339 env (now + AssumeRoleMinDuration env + Second)%Z
    /\ (now + AssumeRoleMinDuration env < now + AssumeRoleMinDuration env + Second)%Z
    /\ (forall r seg, last (tail (Split_slash (Path r))) = Some seg ->
                      seg <> EmptyString ->
                      credHandler env w r
                      = (w', Some {| status := 200; content_type := "application/json";
                                     content_length := Itoa (String.length j);
                                     body := j |})).
Proof.
  intros H now.
  assert (H0 := H). unfold assumeRole in H.
  destruct (role w) as [ro|]; [|discriminate].
  destruct (s w) as [se|]; [|discriminate].
  destruct (usr w) as [u|]; [|discriminate].
  destruct (AssumeRoleGet env se (cred w) _ (files w)) as [[anew fs] res] eqn:Hget.
  destruct res as [[v expiry]|e]; [|discriminate].
  simpl in H.
  destruct (json_Marshal env _) as [j'|] eqn:Hj; [|discriminate].
  injection H as <- <-.
  eexists se, _, anew, fs, v, expiry, _. split; [exact Hget|].
  split; [exact Hj|]. split.
  - unfold metadataOutput, time_Add. simpl. f_equal; unfold now; lia.
  - split; [unfold Second; lia|].
    intros r seg Hseg Hne. unfold credHandler. rewrite Hseg.
    destruct seg as [|a seg]; [contradiction|]. simpl (_ <? _)%nat. cbv iota.
    rewrite H0. reflexivity.
Qed.

Lemma assumeRole_expiration_witness :
  exists j,
    snd (assumeRole example_env (dev_world ".cache")) = Some (Ok j)
    /\ exists v t1,
         json_Marshal example_env
           (metadataOutput example_env v t1 (clock example_env 1)) = Ok j
         /\ o_Expiration (metadataOutput example_env v t1 (clock example_env 1))
            = "1700000902".
Proof.
  set (w := dev_world ".cache").
  assert (Ht : ticks w = 0%nat) by (vm_compute; reflexivity).
  assert (H : exists w' j, assumeRole example_env w = (w', Some (Ok j)))
    by (vm_compute; eauto).
  destruct H as (w' & j & H).
  exists j. split; [now rewrite H|].
  destruct (assumeRole_expiration example_env w w' j H)
    as (se & pv & c' & fs & v & expiry & t1 & _ & Hj & Hexp & _).
  rewrite Ht in Hj, Hexp.
  exists v, t1. split; [exact Hj|].
  rewrite Hexp. vm_compute. reflexivity.
Defined.

End MetadataFacts.

(* ===================================================================== *)
(** * Further properties of the metadata service *)
(* ===================================================================== *)

Module MetadataExtra.
Import Metadata.

Ltac is_post H := rewrite H; change (String.eqb MethodPost MethodPost) with true; cbv iota.

(** ** Strings *)

Lemma substring_prefix_length (text : string) (n : nat) :
  (n <= String.length text)%nat -> String.length (substring 0 n text) = n.
Proof.
  revert n. induction text as [|c text IH]; intros [|n] H; simpl in *;
    try reflexivity; try lia.
  f_equal. apply IH. lia.
Qed.

Lemma substring_prefix_split (text : string) (n : nat) :
  exists rest, text = substring 0 n text ++ rest.
Proof.
  revert n. induction text as [|c text IH]; intros [|n]; simpl.
  - now exists EmptyString.
  - now exists EmptyString.
  - now exists (String c text).
  - destruct (IH n) as [rest Hrest]. exists rest. rewrite Hrest at 1. reflexivity.
Qed.

Lemma substring_append_prefix (a b : string) :
  substring 0 (String.length a) (a ++ b) = a.
Proof.
  induction a as [|c a IH].
  - now destruct b.
  - change (String c a ++ b) with (String c (a ++ b)). simpl. now rewrite IH.
Qed.

Lemma length_append (a b : string) :
  String.length (a ++ b) = (String.length a + String.length b)%nat.
Proof.
  induction a as [|c a IH]; [reflexivity|].
  change (String c a ++ b) with (String c (a ++ b)). simpl. now rewrite IH.
Qed.

Lemma length_substring_bound (text : string) (n : nat) :
  (String.length (substring 0 n text) <= n)%nat.
Proof.
  revert n. induction text as [|c text IH]; intros [|n]; simpl; try lia.
  specialize (IH n). lia.
Qed.

(** ** The MFA code *)

(** X1.  [getMfa] returns a code exactly when the body is there, is read
    without failure, and delivers at least six bytes; the code is then the
    first six bytes of what was read, and the bytes after them are dropped. *)
Theorem getMfa_code (r : option Reader) (mfa : string) :
  getMfa r = Ok mfa <->
  exists rd rest,
    r = Some rd
    /\ read_failed (snd (Read rd mfaBufferLen)) = false
    /\ fst (Read rd mfaBufferLen) = mfa ++ rest
    /\ String.length mfa = 6%nat.
Proof.
  unfold getMfa. split.
  - destruct r as [rd|]; [|discriminate].
    destruct (Read rd mfaBufferLen) as [b err] eqn:Hread. cbn [fst snd].
    destruct (read_failed err) eqn:Hf; [discriminate|].
    destruct (String.length b <? 6)%nat eqn:Hlen; [discriminate|].
    intros [= <-]. apply Nat.ltb_ge in Hlen.
    destruct (substring_prefix_split b 6) as [rest Hrest].
    exists rd, rest. rewrite Hread. cbn [fst snd].
    split_and!; [reflexivity|exact Hf|exact Hrest|].
    now apply substring_prefix_length.
  - intros (rd & rest & -> & Hfail & Hb & Hlen).
    destruct (Read rd mfaBufferLen) as [b err]. cbn [fst snd] in Hfail, Hb.
    rewrite Hfail. subst b.
    assert (Hge : (String.length (mfa ++ rest) <? 6)%nat = false).
    { apply Nat.ltb_ge. rewrite length_append. lia. }
    rewrite Hge. f_equal. rewrite <- Hlen. apply substring_append_prefix.
Qed.

(** [cred.Get()] on credentials that were just made, in full. *)
Lemma cred_Get_made (env : Env) (w : World) (se : option Session) (pv : SessionTokenProvider) :
  cred w = Some (NewSessionCredentials se pv) ->
  cred_Get env w =
  let '(fs, res) := SessionTokenRetrieve env se pv (files w) in
  let w1 := record (EvSessionToken se pv) (set_files fs w) in
  match res with
  | Err e => (w1, Some (Err e))
  | Ok (v, expiry) =>
      (set_cred (Some (retrieved (NewSessionCredentials se pv) v expiry)) w1, Some (Ok v))
  end.
Proof. intros H. unfold cred_Get. rewrite H. reflexivity. Qed.

(** X2.  [mfaHandler] answers 401 only for a code that is too short: the
    body was read without failure and delivered fewer than six bytes, the
    text is Invalid MFA Code and the state is untouched.  No error of the
    identity provider is answered 401 by this handler. *)
Theorem mfaHandler_unauthorized (env : Env) (w : World) (r : Request) (resp : Response) :
  snd (mfaHandler env w r) = Some resp ->
  status resp = 401%Z ->
  fst (mfaHandler env w r) = w
  /\ resp = response 401 "16" "Invalid MFA Code"
  /\ exists rd, Body r = Some rd
                /\ read_failed (snd (Read rd mfaBufferLen)) = false
                /\ (String.length (fst (Read rd mfaBufferLen)) < 6)%nat.
Proof.
  unfold mfaHandler. destruct (getMfa (Body r)) as [mfa|e] eqn:Hmfa.
  - destruct (role w) as [ro|]; [|discriminate].
    destruct (cred_Get env _) as [w2 [[v|e]|]]; cbn [snd]; try discriminate.
    + destruct (cred w2); [|discriminate]. intros [= <-]. discriminate.
    + intros [= <-]. discriminate.
  - cbn [fst snd]. unfold getMfa in Hmfa.
    destruct (Body r) as [rd|].
    + destruct (Read rd mfaBufferLen) as [b err] eqn:Hread.
      destruct (read_failed err) eqn:Hf.
      * injection Hmfa as <-. intros [= <-]. discriminate.
      * destruct (String.length b <? 6)%nat eqn:Hlen; [|discriminate].
        injection Hmfa as <-. intros [= <-] _.
        split; [reflexivity|]. split; [reflexivity|].
        exists rd. rewrite Hread. cbn [fst snd].
        split; [reflexivity|]. split; [exact Hf|]. now apply Nat.ltb_lt.
    + injection Hmfa as <-. intros [= <-]. discriminate.
Qed.

Lemma mfaHandler_unauthorized_witness :
  let w := dev_world ".cache" in
  fst (mfaHandler example_env w (post MfaPath "12345")) = w.
Proof.
  intros w.
  apply (mfaHandler_unauthorized example_env w (post MfaPath "12345")
           (response 401 "16" "Invalid MFA Code")); reflexivity.
Defined.

(** X3.  With an active role and a code of six bytes or more, [mfaHandler]
    asks the session token provider once, for the session [s], with the
    duration, the MFA serial and the cache file of the role and with the
    first six bytes as token code.  [profile], [role], [s] and [usr] stay.
    When the provider gives credentials, [cred] holds them with their
    expiration and the answer is 200 with that expiration.  When it fails,
    whatever the error, the answer is 500 with a fixed text and [cred] is
    the new object without value: the credentials held before are gone. *)
Theorem mfaHandler_retrieves
    (env : Env) (w : World) (r : Request) (ro : AwsConfig) (mfa : string) :
  role w = Some ro ->
  getMfa (Body r) = Ok mfa ->
  let pv := {| Duration := SessionDuration ro; SerialNumber := MfaSerial ro;
               TokenCode := mfa;
               Cache := Cache (sessionProvider env w ro EmptyString) |} in
  let w' := fst (mfaHandler env w r) in
  trace w' = (trace w ++ [EvSessionToken (s w) pv])%list
  /\ profile w' = profile w /\ role w' = role w /\ s w' = s w /\ usr w' = usr w
  /\ files w' = fst (SessionTokenRetrieve env (s w) pv (files w))
  /\ match snd (SessionTokenRetrieve env (s w) pv (files w)) with
     | Ok (v, expiry) =>
         cred w' = Some {| c_session := s w; c_provider := pv; c_creds := v;
                           c_forceRefresh := false; c_expiration := expiry |}
         /\ snd (mfaHandler env w r)
            = Some (writeResponse EmptyString (Local_String env expiry) StatusOK)
     | Err _ =>
         cred w' = Some (NewSessionCredentials (s w) pv)
         /\ snd (mfaHandler env w r)
            = Some (response 500 "33" "Error getting session credentials")
     end.
Proof.
  intros Hro Hmfa pv w'. subst w'. unfold mfaHandler. rewrite Hmfa, Hro.
  change (sessionProvider env w ro mfa) with pv.
  rewrite (cred_Get_made env (set_cred (Some (NewSessionCredentials (s w) pv)) w)
             (s w) pv eq_refl). cbn [files set_cred].
  destruct (SessionTokenRetrieve env (s w) pv (files w)) as [fs [[v expiry]|e]];
    cbn [fst snd cred set_cred record set_files trace profile role s usr files];
    now split_and!.
Qed.

Lemma mfaHandler_retrieves_witness :
  let w := fst (profileHandler example_env (dev_world ".cache") (post ProfilePath "secure")) in
  let w' := fst (mfaHandler example_env w (post MfaPath "1234567")) in
  sessionTokenRequests (trace w') = S (sessionTokenRequests (trace w))
  /\ role w' = role w.
Proof.
  intros w w'.
  assert (Hro : role w = Some (example_config "secure")) by (vm_compute; reflexivity).
  destruct (mfaHandler_retrieves example_env w (post MfaPath "1234567")
              (example_config "secure") "123456" Hro eq_refl)
    as (Ht & _ & Hr & _).
  split; [|exact Hr].
  fold w' in Ht. rewrite Ht. unfold sessionTokenRequests.
  rewrite List.filter_app, List.length_app. simpl. lia.
Defined.

(** ** What the handlers keep *)

Ltac crunch :=
  repeat match goal with
         | |- context [match ?x with _ => _ end] => destruct x eqn:?
         | |- context [if ?x then _ else _] => destruct x eqn:?
         end.

Ltac grown :=
  eexists; split;
  [ first [ symmetry; apply app_nil_r | rewrite <- ?app_assoc; reflexivity ]
  | cbn [In app]; intuition congruence ].

Ltac kept_tac :=
  unfold kept;
  cbn [cacheDir logDebug ticks usr trace profile set_cred set_s set_usr set_files
       set_role set_profile record tick fst];
  split_and!; try reflexivity; try lia; try tauto; try discriminate; try grown.

Lemma cred_Get_made_kept (env : Env) (w : World) (se : option Session)
    (pv : SessionTokenProvider) :
  cred w = Some (NewSessionCredentials se pv) ->
  kept w (fst (cred_Get env w)) /\ profile (fst (cred_Get env w)) = profile w.
Proof.
  intros H. rewrite (cred_Get_made env w se pv H).
  destruct (SessionTokenRetrieve env se pv (files w)) as [fs [[v x]|e]];
    cbn [fst]; (split; [|reflexivity]); kept_tac.
Qed.

Lemma kept_trans (w1 w2 w3 : World) : kept w1 w2 -> kept w2 w3 -> kept w1 w3.
Proof.
  intros (Hd & Hl & Ht & Hu & t & Htr & Hid) (Hd' & Hl' & Ht' & Hu' & t' & Htr' & Hid').
  unfold kept. split_and!; try congruence; [lia|auto|].
  exists (t ++ t')%list. split; [rewrite Htr', Htr; now rewrite app_assoc|].
  intros Hne se Hin. apply in_app_or in Hin. destruct Hin as [Hin|Hin].
  - exact (Hid Hne se Hin).
  - destruct (usr w1) as [u|] eqn:Hu1; [|congruence].
    apply (Hid' ltac:(rewrite (Hu u eq_refl); discriminate) se Hin).
Qed.

Lemma kept_refl (w : World) : kept w w.
Proof.
  kept_tac.
Qed.

Lemma updateSession_kept (env : Env) (w : World) (p : string) :
  kept w (fst (updateSession env w p))
  /\ profile (fst (updateSession env w p)) = profile w.
Proof.
  unfold updateSession.
  destruct (NewSessionWithOptions env _) as [se|e]; cbn [fst usr set_s record].
  - destruct (usr w) as [u|] eqn:Hu.
    + split; [|reflexivity]. kept_tac.
    + destruct (GetCallerIdentity env se); (split; [|reflexivity]); kept_tac;
        try congruence; (eexists; split; [rewrite <- ?app_assoc; reflexivity|congruence]).
  - split; [|reflexivity]. kept_tac.
Qed.

Lemma establishSession_kept (env : Env) (w : World) (p : AwsConfig) :
  kept w (fst (establishSession env w p))
  /\ profile (fst (establishSession env w p)) = profile w.
Proof.
  unfold establishSession.
  assert (Hu : exists w2 res,
             (if sourceChanged w p then updateSession env w (SourceProfile p)
              else (w, Some (Ok tt))) = (w2, res)
             /\ kept w w2 /\ profile w2 = profile w).
  { destruct (sourceChanged w p).
    - destruct (updateSession_kept env w (SourceProfile p)) as [H1 H2].
      destruct (updateSession env w (SourceProfile p)) as [w2 res].
      exists w2, res. now split_and!.
    - exists w, (Some (Ok tt)). split_and!; [reflexivity|apply kept_refl|reflexivity]. }
  destruct Hu as (w2 & res & -> & Hk & Hp).
  destruct res as [res|]; [|now split].
  match goal with
  | |- kept w (fst (cred_Get env ?w4)) /\ _ =>
      destruct (cred_Get_made_kept env w4 _ _ eq_refl) as [Hk4 Hp4]
  end.
  split.
  - apply (kept_trans w w2); [exact Hk|]. exact Hk4.
  - rewrite Hp4. exact Hp.
Qed.

(** ** The path of a credential request *)

Lemma Split_slash_segment (seg : string) :
  no_slash seg = true -> Split_slash seg = [seg].
Proof.
  induction seg as [|c seg IH]; [reflexivity|].
  simpl. destruct (Ascii.eqb c "/"); [discriminate|]. simpl.
  intros H. now rewrite (IH H).
Qed.

(** The segments of a path that ends with a slash and [seg]: there are at
    least two, and the last one is [seg]. *)
Lemma Split_slash_last (dir seg : string) :
  no_slash seg = true ->
  exists a b l, Split_slash (dir ++ "/" ++ seg) = a :: b :: l
                /\ last (b :: l) = Some seg.
Proof.
  intros Hseg. induction dir as [|c dir IH].
  - exists EmptyString, seg, []. split; [|reflexivity].
    change (EmptyString ++ "/" ++ seg) with (String "/" seg).
    simpl. now rewrite (Split_slash_segment seg Hseg).
  - destruct IH as (a & b & l & Heq & Hlast).
    change (String c dir ++ "/" ++ seg) with (String c (dir ++ "/" ++ seg)).
    simpl. rewrite Heq. destruct (Ascii.eqb c "/").
    + exists EmptyString, a, (b :: l). split; [reflexivity|]. exact Hlast.
    + exists (String c a), b, l. split; [reflexivity|]. exact Hlast.
Qed.

Lemma Split_slash_flat (text : string) :
  no_slash text = true -> tail (Split_slash text) = [].
Proof. intros H. now rewrite (Split_slash_segment text H). Qed.

Lemma credHandler_slash (env : Env) (w : World) (r : Request) (dir : string) :
  Path r = dir ++ "/" ->
  credHandler env w r
  = (w, Some (response 200 (Itoa (String.length (profile w))) (profile w)))
  /\ fst (credHandler env w r) = w.
Proof.
  intros Hpath. unfold credHandler. rewrite Hpath.
  destruct (Split_slash_last dir EmptyString eq_refl) as (a & b & l & Heq & Hlast).
  change (dir ++ "/" ++ EmptyString) with (dir ++ "/") in Heq.
  rewrite Heq. cbn [tail]. rewrite Hlast. split; reflexivity.
Qed.

(** X4.  [credHandler] looks only at whether the path ends with a slash.
    When it does, the answer is the active profile name and nothing
    changes.  When a segment follows the last slash, the handler derives
    the credentials of the active role whatever the segment says: two
    requests that name different roles are served alike.  A path without
    slash is a panic. *)
Theorem credHandler_segment (env : Env) (w : World) (r : Request) (dir seg : string) :
  Path r = dir ++ "/" ++ seg ->
  no_slash seg = true ->
  (seg = EmptyString ->
     credHandler env w r
     = (w, Some (response 200 (Itoa (String.length (profile w))) (profile w))))
  /\ (seg <> EmptyString ->
       forall r' dir' seg',
         Path r' = dir' ++ "/" ++ seg' -> no_slash seg' = true -> seg' <> EmptyString ->
         credHandler env w r' = credHandler env w r)
  /\ (forall r0, no_slash (Path r0) = true -> credHandler env w r0 = (w, None)).
Proof.
  intros Hpath Hseg.
  assert (Hany : forall r1 d1 s1, Path r1 = d1 ++ "/" ++ s1 -> no_slash s1 = true ->
            credHandler env w r1 =
            if (String.length s1 <? 1)%nat then (w, Some (sendProfile w))
            else match assumeRole env w with
                 | (w1, None) => (w1, None)
                 | (w1, Some (Err _)) =>
                     (w1, Some (writeResponse EmptyString "Error getting role credentials"
                                              StatusInternalServerError))
                 | (w1, Some (Ok b)) =>
                     (w1, Some (writeResponse "application/json" b StatusOK))
                 end).
  { intros r1 d1 s1 H1 H2. unfold credHandler. rewrite H1.
    destruct (Split_slash_last d1 s1 H2) as (a & b & l & -> & Hlast).
    cbn [tail]. now rewrite Hlast. }
  split_and!.
  - intros ->. now rewrite (Hany r dir EmptyString Hpath Hseg).
  - intros Hne r' dir' seg' Hpath' Hseg' Hne'.
    rewrite (Hany r dir seg Hpath Hseg), (Hany r' dir' seg' Hpath' Hseg').
    destruct seg; [contradiction|]. destruct seg'; [contradiction|]. reflexivity.
  - intros r0 H0. unfold credHandler. now rewrite (Split_slash_flat _ H0).
Qed.

Lemma credHandler_segment_witness :
  let w := dev_world ".cache" in
  credHandler example_env w (get (EC2MetadataCredentialPath ++ "prod"))
  = credHandler example_env w (get (EC2MetadataCredentialPath ++ "dev")).
Proof.
  intros w.
  destruct (credHandler_segment example_env w
              (get (EC2MetadataCredentialPath ++ "dev"))
              "/latest/meta-data/iam/security-credentials" "dev"
              eq_refl eq_refl) as (_ & H & _).
  apply (H ltac:(discriminate) (get (EC2MetadataCredentialPath ++ "prod"))
           "/latest/meta-data/iam/security-credentials" "prod");
    [reflexivity|reflexivity|discriminate].
Defined.

(** X5.  A request that needs the active role when there is none panics:
    no answer is written and the state is as before.  That holds for
    [mfaHandler] with a well-formed code when [role] is nil, and for a
    credential request that names a role when [role], [s] or [usr] is nil,
    as on a server started without initial profile. *)
Theorem no_role_panics (env : Env) (w : World) (r : Request) :
  (role w = None ->
     forall mfa, getMfa (Body r) = Ok mfa -> mfaHandler env w r = (w, None))
  /\ (role w = None \/ s w = None \/ usr w = None ->
       forall dir seg, Path r = dir ++ "/" ++ seg -> no_slash seg = true ->
                       seg <> EmptyString ->
                       credHandler env w r = (w, None)).
Proof.
  split.
  - intros Hro mfa Hmfa. unfold mfaHandler. now rewrite Hmfa, Hro.
  - intros Hnil dir seg Hpath Hseg Hne. unfold credHandler. rewrite Hpath.
    destruct (Split_slash_last dir seg Hseg) as (a & b & l & -> & Hlast).
    cbn [tail]. rewrite Hlast.
    destruct seg; [contradiction|]. simpl (_ <? _)%nat. cbv iota.
    unfold assumeRole.
    destruct (role w); [|reflexivity].
    destruct (s w); [|reflexivity].
    destruct (usr w); [|reflexivity].
    destruct Hnil as [H|[H|H]]; discriminate.
Qed.

Lemma no_role_panics_witness :
  let w := initial_world ".cache" in
  mfaHandler example_env w (post MfaPath "123456") = (w, None)
  /\ credHandler example_env w (get (EC2MetadataCredentialPath ++ "dev")) = (w, None).
Proof.
  intros w.
  destruct (no_role_panics example_env w (post MfaPath "123456")) as [H1 _].
  destruct (no_role_panics example_env w (get (EC2MetadataCredentialPath ++ "dev")))
    as [_ H2].
  split.
  - apply (H1 eq_refl "123456"). reflexivity.
  - apply (H2 (or_introl eq_refl) "/latest/meta-data/iam/security-credentials" "dev");
      [reflexivity|reflexivity|discriminate].
Defined.

(** ** The profile *)

Lemma profileHandler_profile (env : Env) (w : World) (r : Request) (rd : Reader) :
  Method r = MethodPost ->
  Body r = Some rd ->
  read_failed (snd (Read rd profileBufferLen)) = false ->
  profile (fst (profileHandler env w r)) = fst (Read rd profileBufferLen).
Proof.
  intros Hm Hbody Hread.
  unfold profileHandler. is_post Hm.
  unfold getProfileConfig. rewrite Hbody.
  revert Hread. unfold Read. cbn [fst snd]. intros ->.
  cbn [profile set_profile].
  destruct (ResolveConfig env _) as [p|e]; [|reflexivity].
  match goal with
  | |- profile (fst (match establishSession env ?w1 p with _ => _ end)) = _ =>
      destruct (establishSession_kept env w1 p) as [_ Hp1];
      destruct (establishSession env w1 p) as [w5 [[v|e]|]]; cbn [fst] in Hp1 |- *
  end.
  - now destruct (cred w5).
  - now destruct (mfaRequired e).
  - exact Hp1.
Qed.

(** X6.  On POST /profile with a body that is read without failure,
    [profile] becomes the bytes read, at most 4096 of them, whatever comes
    next: a failed resolution, a panic, a provider error or success.  From
    then on a request to /profile with another method, and a credential
    request whose path ends with a slash, are answered 200 with those
    bytes.  The reader of [strings.NewReader] delivers a text of up to
    4096 bytes whole. *)
Theorem profile_round_trip (env : Env) (w : World) (r : Request) (rd : Reader) :
  Method r = MethodPost ->
  Body r = Some rd ->
  read_failed (snd (Read rd profileBufferLen)) = false ->
  let name := fst (Read rd profileBufferLen) in
  let w' := fst (profileHandler env w r) in
  profile w' = name
  /\ (String.length name <= profileBufferLen)%nat
  /\ (forall text, rd = strings_NewReader text ->
                   (String.length text <= profileBufferLen)%nat -> name = text)
  /\ (forall r', Method r' <> MethodPost ->
        profileHandler env w' r'
        = (w', Some (response 200 (Itoa (String.length name)) name)))
  /\ (forall r' dir, Path r' = dir ++ "/" ->
        credHandler env w' r'
        = (w', Some (response 200 (Itoa (String.length name)) name))).
Proof.
  intros Hm Hbody Hread name w'.
  assert (Hp : profile w' = name)
    by (apply profileHandler_profile; assumption).
  split_and!.
  - exact Hp.
  - unfold name, Read. cbn [fst]. apply length_substring_bound.
  - intros text -> Hlen. unfold name.
    now destruct (MetadataFacts.Read_strings_NewReader text profileBufferLen Hlen).
  - intros r' Hm'. unfold profileHandler.
    apply String.eqb_neq in Hm'. rewrite Hm'. unfold sendProfile. now rewrite Hp.
  - intros r' dir Hpath.
    destruct (credHandler_slash env w' r' dir Hpath) as [-> _]. now rewrite Hp.
Qed.

Lemma profile_round_trip_witness :
  let w := dev_world ".cache" in
  let w' := fst (profileHandler example_env w (post ProfilePath "secure")) in
  profile w' = "secure"
  /\ profileHandler example_env w' (get ProfilePath)
     = (w', Some (response 200 "6" "secure")).
Proof.
  intros w w'.
  destruct (profile_round_trip example_env w (post ProfilePath "secure")
              (strings_NewReader "secure") eq_refl eq_refl eq_refl)
    as (Hp & _ & _ & Hget & _).
  split; [exact Hp|]. apply (Hget (get ProfilePath)). discriminate.
Defined.

(** X7.  A request whose body is missing or cannot be read is answered 500
    with a fixed text and changes nothing, [profile] included; for
    /profile as for /mfa the check comes before anything else is done. *)
Theorem unreadable_body (env : Env) (w : World) (r : Request) :
  (Method r = MethodPost ->
   (Body r = None
    \/ exists rd, Body r = Some rd /\ read_failed (snd (Read rd profileBufferLen)) = true) ->
   profileHandler env w r = (w, Some (response 500 "10" "nil reader"))
   \/ profileHandler env w r = (w, Some (response 500 "26" "Error reading request data")))
  /\ ((Body r = None
       \/ exists rd, Body r = Some rd /\ read_failed (snd (Read rd mfaBufferLen)) = true) ->
      mfaHandler env w r = (w, Some (response 500 "10" "nil reader"))
      \/ mfaHandler env w r = (w, Some (response 500 "26" "Error reading request data"))).
Proof.
  split.
  - intros Hm [Hnil|[rd [Hbody Hfail]]]; unfold profileHandler; is_post Hm;
      unfold getProfileConfig.
    + rewrite Hnil. now left.
    + rewrite Hbody. revert Hfail. unfold Read. cbn [fst snd]. intros ->. now right.
  - intros [Hnil|[rd [Hbody Hfail]]]; unfold mfaHandler, getMfa.
    + rewrite Hnil. now left.
    + rewrite Hbody. revert Hfail. unfold Read. cbn [fst snd]. intros ->. now right.
Qed.

Lemma unreadable_body_witness :
  let w := dev_world ".cache" in
  let r := {| Method := MethodPost; Path := ProfilePath; Body := None |} in
  profileHandler example_env w r = (w, Some (response 500 "10" "nil reader"))
  /\ mfaHandler example_env w r = (w, Some (response 500 "10" "nil reader")).
Proof.
  intros w r. destruct (unreadable_body example_env w r) as [H1 H2]. split.
  - destruct (H1 eq_refl (or_introl eq_refl)) as [H|H]; [exact H|].
    apply (f_equal snd) in H. vm_compute in H. discriminate.
  - destruct (H2 (or_introl eq_refl)) as [H|H]; [exact H|].
    apply (f_equal snd) in H. vm_compute in H. discriminate.
Defined.

(** The session step when it does not panic: the session is updated or
    kept, and new credentials for [p] are fetched. *)
Lemma establishSession_fetch (env : Env) (w : World) (p : AwsConfig) :
  snd (establishSession env w p) <> None ->
  exists w2,
    cacheDir w2 = cacheDir w
    /\ establishSession env w p
       = cred_Get env (set_cred (Some (NewSessionCredentials (s w2)
                                         (sessionProvider env w p EmptyString)))
                                (set_role (Some p) w2)).
Proof.
  unfold establishSession.
  assert (Hu : exists w2 res,
             (if sourceChanged w p then updateSession env w (SourceProfile p)
              else (w, Some (Ok tt))) = (w2, res) /\ cacheDir w2 = cacheDir w).
  { destruct (sourceChanged w p).
    - destruct (updateSession_kept env w (SourceProfile p)) as [(Hd & _) _].
      destruct (updateSession env w (SourceProfile p)) as [w2 res]. eauto.
    - eauto. }
  destruct Hu as (w2 & res & -> & Hd).
  destruct res as [res|]; [|intros H; now contradiction H].
  intros _. exists w2. split; [exact Hd|].
  cbn [s set_role].
  assert (Hpv : sessionProvider env (set_role (Some p) w2) p EmptyString
                = sessionProvider env w p EmptyString).
  { unfold sessionProvider.
    now rewrite (MetadataFacts.cacheFile_cacheDir env w (set_role (Some p) w2)). }
  now rewrite Hpv.
Qed.

(** X8.  When POST /profile resolves its profile to [p] and does not panic,
    the role is switched to [p] and [cred] is a new object for [p], whether
    or not credentials are obtained.  The session token provider was asked
    with the session [s] of the new state: if it gave credentials, [cred]
    holds them and the answer is 200 with the expiration that the provider
    returned; if it failed, [cred] is the new object without value (the
    credentials of the profile active before are gone) and the answer is
    401 or 500. *)
Theorem profileHandler_switch
    (env : Env) (w w1 : World) (r : Request) (p : AwsConfig) (resp : Response) :
  Method r = MethodPost ->
  getProfileConfig env w (Body r) = (w1, Ok p) ->
  snd (profileHandler env w r) = Some resp ->
  let w' := fst (profileHandler env w r) in
  let pv := sessionProvider env w p EmptyString in
  role w' = Some p
  /\ exists fs0,
       files w' = fst (SessionTokenRetrieve env (s w') pv fs0)
       /\ match snd (SessionTokenRetrieve env (s w') pv fs0) with
          | Ok (v, expiry) =>
              cred w' = Some {| c_session := s w'; c_provider := pv; c_creds := v;
                                c_forceRefresh := false; c_expiration := expiry |}
              /\ resp = writeResponse EmptyString (Local_String env expiry) StatusOK
          | Err e =>
              cred w' = Some (NewSessionCredentials (s w') pv)
              /\ resp = if mfaRequired e
                        then response 401 "17" "MFA code required"
                        else response 500 "33" "Error getting session credentials"
          end.
Proof.
  intros Hm Hcfg. cbv zeta. unfold profileHandler. is_post Hm. rewrite Hcfg.
  destruct (MetadataFacts.getProfileConfig_ok env w w1 (Body r) p Hcfg)
    as (rd & _ & Hw1 & _).
  assert (Hdir : cacheDir w1 = cacheDir w) by (rewrite Hw1; reflexivity).
  assert (Hpv1 : sessionProvider env w1 p EmptyString = sessionProvider env w p EmptyString).
  { unfold sessionProvider. now rewrite (MetadataFacts.cacheFile_cacheDir env w w1). }
  destruct (snd (establishSession env w1 p)) as [res|] eqn:Hres.
  - destruct (establishSession_fetch env w1 p) as (w2 & _ & Heq);
      [rewrite Hres; discriminate|].
    rewrite Hpv1 in Heq. rewrite Heq.
    erewrite cred_Get_made by reflexivity.
    cbn [files set_cred set_role].
    destruct (SessionTokenRetrieve env (s w2) _ (files w2)) as [fs [[v expiry]|e]] eqn:Hret.
    + cbn [cred set_cred fst snd]. intros [= <-].
      cbn [role s files set_cred set_role record set_files].
      split; [reflexivity|]. exists (files w2). now rewrite Hret.
    + destruct (mfaRequired e) eqn:He; cbn [fst snd]; intros [= <-];
        cbn [role s files set_cred set_role record set_files];
        (split; [reflexivity|]); exists (files w2); rewrite Hret; cbn [fst snd];
        rewrite He; now split.
  - destruct (establishSession env w1 p) as [w5 [res|]]; [discriminate|].
    cbn [snd]. discriminate.
Qed.

Lemma profileHandler_switch_witness :
  let w := dev_world ".cache" in
  let w' := fst (profileHandler example_env w (post ProfilePath "secure")) in
  role w' = Some (example_config "secure").
Proof.
  intros w w'.
  assert (Hcfg : getProfileConfig example_env w (Body (post ProfilePath "secure"))
                 = (set_profile "secure" w, Ok (example_config "secure")))
    by (vm_compute; reflexivity).
  assert (Hresp : snd (profileHandler example_env w (post ProfilePath "secure"))
                  = Some (response 401 "17" "MFA code required"))
    by (vm_compute; reflexivity).
  exact (proj1 (profileHandler_switch example_env w _ (post ProfilePath "secure")
                  (example_config "secure") _ eq_refl Hcfg Hresp)).
Defined.

(** ** Invariants of the handlers *)






(** ** Role credentials *)

(** X10.  With a role, a session and an identity, a credential request that
    names a role asks for the role once: for the ARN and the external id of
    the active role, the default duration, and the name of the caller as
    session name.  The clock is read twice on success and not at all on
    failure.  When the provider or the serialisation fails the answer is
    500 with one fixed text; otherwise it is 200 with the serialised
    output, whose [Code] is Success and whose [Type] is AWS-HMAC, typed
    application/json. *)
Theorem credHandler_assumes (env : Env) (w : World) (r : Request)
    (dir seg : string) (ro : AwsConfig) (se : Session) (u : AwsIdentity) :
  Path r = dir ++ "/" ++ seg -> no_slash seg = true -> seg <> EmptyString ->
  role w = Some ro -> s w = Some se -> usr w = Some u ->
  let pv := {| ar_RoleArn := RoleArn ro;
               ar_Duration := AssumeRoleDefaultDuration env;
               ar_ExternalID := ExternalID ro;
               ar_RoleSessionName := UserName u |} in
  let w' := fst (credHandler env w r) in
  let got := AssumeRoleGet env se (cred w) pv (files w) in
  trace w' = (trace w ++ [EvAssumeRole se pv])%list
  /\ profile w' = profile w /\ role w' = role w /\ s w' = s w /\ usr w' = usr w
  /\ files w' = snd (fst got)
  /\ cred w' = refreshed (cred w) (fst (fst got))
  /\ match snd got with
     | Err _ =>
         ticks w' = ticks w
         /\ snd (credHandler env w r)
            = Some (response 500 "30" "Error getting role credentials")
     | Ok (v, _) =>
         ticks w' = S (S (ticks w))
         /\ exists out,
              o_Code out = "Success" /\ o_Type out = "AWS-HMAC"
              /\ o_AccessKeyId out = AccessKeyID v
              /\ o_SecretAccessKey out = SecretAccessKey v
              /\ o_Token out = SessionToken v
              /\ o_LastUpdated out = Format_RFC3339 env (clock env (ticks w))
              /\ snd (credHandler env w r)
                 = Some match json_Marshal env out with
                        | Ok j => writeResponse "application/json" j StatusOK
                        | Err _ => response 500 "30" "Error getting role credentials"
                        end
     end.
Proof.
  intros Hpath Hseg Hne Hro Hs Hu pv w' got. subst w'.
  unfold credHandler. rewrite Hpath.
  destruct (Split_slash_last dir seg Hseg) as (a & b & l & -> & Hlast).
  cbn [tail]. rewrite Hlast.
  destruct seg; [contradiction|]. simpl (_ <? _)%nat. cbv iota.
  unfold assumeRole. rewrite Hro, Hs, Hu. fold pv. fold got.
  destruct got as [[anew fs] [[v x]|e]]; cbn [fst snd time_Now].
  - cbn [ticks tick record set_files set_cred].
    match goal with
    | |- context [json_Marshal env ?o] => set (out := o)
    end.
    destruct (json_Marshal env out) as [j|e] eqn:Hj; cbn [fst snd];
      cbn [trace profile role s usr files cred ticks tick record set_files set_cred];
      (split_and!; try assumption; try reflexivity);
      (exists out; split_and!; try reflexivity; rewrite Hj; reflexivity).
  - cbn [trace profile role s usr files cred ticks tick record set_files set_cred].
    split_and!; try assumption; reflexivity.
Qed.

Lemma credHandler_assumes_witness :
  let w := dev_world ".cache" in
  let w' := fst (credHandler example_env w (get (EC2MetadataCredentialPath ++ "dev"))) in
  ticks w' = S (S (ticks w)) /\ role w' = role w.
Proof.
  intros w w'.
  assert (Hro : role w = Some (example_config "dev")) by (vm_compute; reflexivity).
  assert (Hs : exists se, s w = Some se) by (vm_compute; eauto).
  destruct Hs as [se Hs].
  assert (Hu : usr w = Some example_identity) by (vm_compute; reflexivity).
  destruct (credHandler_assumes example_env w (get (EC2MetadataCredentialPath ++ "dev"))
              "/latest/meta-data/iam/security-credentials" "dev"
              (example_config "dev") se example_identity
              eq_refl eq_refl ltac:(discriminate) Hro Hs Hu)
    as (_ & _ & Hr & _ & _ & _ & _ & H).
  split; [|exact Hr]. cbn [snd example_env AssumeRoleGet] in H. apply H.
Defined.

(** ** The cache file *)

(** X11.  The cache file of a session token provider depends on the cache
    directory and on the source profile of the role only: roles with the
    same source profile share it.  There is none when the cache directory
    or the source profile is empty, and then a refresh for that role
    removes no file. *)
Theorem cache_by_source_profile (env : Env) (w : World) (ro ro' : AwsConfig) (t t' : string) :
  (SourceProfile ro = SourceProfile ro' ->
     Cache (sessionProvider env w ro t) = Cache (sessionProvider env w ro' t'))
  /\ (cacheDir w = EmptyString \/ SourceProfile ro = EmptyString ->
       Cache (sessionProvider env w ro t) = None
       /\ (role w = Some ro ->
           forall r, files (fst (refreshHandler env w r)) = files w)).
Proof.
  split.
  - intros H. unfold sessionProvider. cbn [Cache]. now rewrite H.
  - intros Hnil.
    assert (Hcf : cacheFile env w (SourceProfile ro) = EmptyString).
    { unfold cacheFile. destruct Hnil as [-> | ->]; [reflexivity|].
      now rewrite andb_false_r. }
    split.
    + unfold sessionProvider. cbn [Cache]. now rewrite Hcf.
    + intros Hro r. unfold refreshHandler. cbn [fst].
      destruct (String.eqb (Method r) MethodPost); [|reflexivity].
      destruct (cred w) as [c|]; [|reflexivity].
      cbn [role set_cred]. rewrite Hro.
      rewrite (MetadataFacts.cacheFile_cacheDir env w (set_cred _ w)) by reflexivity.
      now rewrite Hcf.
Qed.

Lemma cache_by_source_profile_witness :
  let w := dev_world EmptyString in
  Cache (sessionProvider example_env w (example_config "dev") EmptyString) = None
  /\ files (fst (refreshHandler example_env w (post RefreshPath EmptyString))) = files w.
Proof.
  intros w.
  destruct (cache_by_source_profile example_env w (example_config "dev")
              (example_config "dev") EmptyString EmptyString) as [_ H].
  destruct (H (or_introl eq_refl)) as [H1 H2].
  split; [exact H1|]. apply H2. vm_compute. reflexivity.
Defined.

(** X12.  Refresh, then select a profile with the same source profile
    again (what the refresh button of the home page does): the session
    token provider is asked once, for the same session, and the files it
    is given do not contain its cache file, which the refresh removed.
    The files after the request are the ones the provider leaves. *)
Theorem refresh_then_profile
    (env : Env) (w w2 : World) (r1 r2 : Request) (c : Credentials) (ro p : AwsConfig) :
  cred w = Some c -> role w = Some ro ->
  Method r1 = MethodPost -> Method r2 = MethodPost ->
  let w1 := fst (refreshHandler env w r1) in
  getProfileConfig env w1 (Body r2) = (w2, Ok p) ->
  SourceProfile p = SourceProfile ro ->
  let pv := sessionProvider env w p EmptyString in
  let w' := fst (profileHandler env w1 r2) in
  (forall path, Cache pv = Some path -> path ∉ files w1)
  /\ files w' = fst (SessionTokenRetrieve env (s w) pv (files w1))
  /\ trace w' = (trace w ++ [EvSessionToken (s w) pv])%list.
Proof.
  intros Hc Hro Hm1 Hm2 w1 Hcfg Hsame pv w'.
  assert (Hw1 : w1 = let wc := set_cred (Some (Expire c)) w in
                     if (0 <? String.length (cacheFile env w (SourceProfile ro)))%nat
                     then os_Remove (cacheFile env w (SourceProfile ro)) wc else wc).
  { unfold w1. rewrite (MetadataFacts.refreshHandler_post env w r1 c Hm1 Hc).
    cbv zeta. now rewrite Hro. }
  cbv zeta in Hw1.
  assert (Hframe : role w1 = Some ro /\ s w1 = s w /\ cacheDir w1 = cacheDir w
                   /\ trace w1 = trace w).
  { rewrite Hw1. destruct (0 <? _)%nat; now split_and!. }
  destruct Hframe as (Hro1 & Hs1 & Hd1 & Ht1).
  destruct (MetadataFacts.getProfileConfig_ok env w1 w2 (Body r2) p Hcfg)
    as (rd & _ & Hw2 & _).
  assert (Hfst : w' = fst (establishSession env w2 p))
    by (apply MetadataFacts.profileHandler_fst; assumption).
  assert (Hch : sourceChanged w2 p = false).
  { unfold sourceChanged. rewrite Hw2. cbn [role set_profile]. rewrite Hro1, Hsame.
    now rewrite String.eqb_refl. }
  unfold establishSession in Hfst. rewrite Hch in Hfst.
  assert (Hpv : sessionProvider env (set_role (Some p) w2) p EmptyString = pv).
  { unfold pv, sessionProvider.
    rewrite (MetadataFacts.cacheFile_cacheDir env w (set_role (Some p) w2));
      [reflexivity|]. rewrite Hw2. exact Hd1. }
  rewrite Hpv in Hfst. erewrite cred_Get_made in Hfst by reflexivity.
  cbn [s files set_cred set_role] in Hfst.
  assert (Hs2 : s w2 = s w) by (rewrite Hw2; exact Hs1).
  assert (Hf2 : files w2 = files w1) by (rewrite Hw2; reflexivity).
  assert (Ht2 : trace w2 = trace w) by (rewrite Hw2; exact Ht1).
  rewrite Hs2, Hf2 in Hfst.
  split_and!.
  - intros path Hpath. unfold pv, sessionProvider in Hpath. cbn [Cache] in Hpath.
    rewrite <- Hsame in Hw1. revert Hpath.
    rewrite Hw1. destruct (0 <? _)%nat; [|discriminate].
    intros [= <-]. apply MetadataFacts.removed_absent.
  - rewrite Hfst.
    destruct (SessionTokenRetrieve env (s w) pv (files w1)) as [fs [[v x]|e]];
      reflexivity.
  - rewrite Hfst.
    destruct (SessionTokenRetrieve env (s w) pv (files w1)) as [fs [[v x]|e]];
      cbn [fst trace set_cred record set_files set_role]; now rewrite Ht2.
Qed.

Lemma refresh_then_profile_witness :
  let w := dev_world ".cache" in
  let w1 := fst (refreshHandler example_env w (post RefreshPath EmptyString)) in
  ".cache/.aws_session_token_base" ∉ files w1.
Proof.
  intros w w1.
  assert (Hc : exists c, cred w = Some c) by (vm_compute; eauto).
  destruct Hc as [c Hc].
  assert (Hro : role w = Some (example_config "dev")) by (vm_compute; reflexivity).
  assert (Hcfg : getProfileConfig example_env w1 (Body (post ProfilePath "prod"))
                 = (set_profile "prod" w1, Ok (example_config "prod")))
    by (vm_compute; reflexivity).
  destruct (refresh_then_profile example_env w (set_profile "prod" w1)
              (post RefreshPath EmptyString) (post ProfilePath "prod")
              c (example_config "dev") (example_config "prod")
              Hc Hro eq_refl eq_refl Hcfg eq_refl) as [H _].
  apply H. vm_compute. reflexivity.
Defined.

(** ** Responses *)

Lemma writeResponse_regular (ct text : string) (c : Z) :
  (ct = EmptyString \/ (ct = "application/json" /\ c = 200%Z)) ->
  (c = 200%Z \/ c = 401%Z \/ c = 500%Z) ->
  regular (writeResponse ct text c).
Proof.
  intros Hct Hc. unfold regular, sized, writeResponse. cbn [status content_type content_length body].
  assert (Hlt : (c <? 100)%Z = false) by (destruct Hc as [->|[->| ->]]; reflexivity).
  rewrite Hlt. split; [reflexivity|]. split; [exact Hc|].
  destruct Hct as [->|[-> ->]]; [left|right]; simpl; auto.
Qed.

Lemma getProfileConfig_code (env : Env) (w w1 : World) (body : option Reader) (e : handlerError) :
  getProfileConfig env w body = (w1, Err e) -> code e = 500%Z.
Proof.
  unfold getProfileConfig. destruct body as [rd|]; [|now intros [= <- <-]].
  unfold Read. cbn [fst snd].
  destruct (read_failed _); [now intros [= <- <-]|].
  destruct (ResolveConfig env _); [discriminate|now intros [= <- <-]].
Qed.

Lemma getMfa_error_code (body : option Reader) (e : handlerError) :
  getMfa body = Err e -> code e = 500%Z \/ code e = 401%Z.
Proof.
  unfold getMfa. destruct body as [rd|]; [|intros [= <-]; now left].
  destruct (Read rd mfaBufferLen) as [b err].
  destruct (read_failed err); [intros [= <-]; now left|].
  destruct (_ <? _)%nat; [intros [= <-]; now right|discriminate].
Qed.

(** X13.  Whatever a handler answers, the Content-Length is the decimal
    length of the body, the status is 200, 401 or 500 (the fallback of
    [writeResponse] for a status under 100 is never taken), and the type is
    text/plain unless the status is 200 and the body is the JSON of the
    credentials or of the role list.  The credential, refresh and role
    list handlers never answer 401. *)
Theorem responses_regular (env : Env) (h : Host) (w : World) (sv : Service)
    (r : Request) (resp : Response) :
  (snd (profileHandler env w r) = Some resp -> regular resp)
  /\ (snd (mfaHandler env w r) = Some resp -> regular resp)
  /\ (snd (credHandler env w r) = Some resp -> regular resp /\ status resp <> 401%Z)
  /\ (snd (refreshHandler env w r) = Some resp -> regular resp /\ status resp = 200%Z)
  /\ (snd (listRoleHandler h sv r) = Some resp -> regular resp /\ status resp <> 401%Z).
Proof.
  split_and!.
  - unfold profileHandler.
    destruct (String.eqb (Method r) MethodPost).
    + destruct (getProfileConfig env w (Body r)) as [w1 [p|hErr]] eqn:Hcfg.
      * destruct (establishSession env w1 p) as [w5 [[v|e]|]]; cbn [snd].
        -- destruct (cred w5); [|discriminate]. intros [= <-].
           apply writeResponse_regular; auto.
        -- destruct (mfaRequired e); intros [= <-]; apply writeResponse_regular; auto.
        -- discriminate.
      * intros [= <-]. apply getProfileConfig_code in Hcfg.
        apply writeResponse_regular; auto.
    + intros [= <-]. apply writeResponse_regular; auto.
  - unfold mfaHandler. destruct (getMfa (Body r)) as [mfa|e] eqn:Hmfa.
    + destruct (role w); [|discriminate].
      destruct (cred_Get env _) as [w2 [[v|e]|]]; cbn [snd].
      * destruct (cred w2); [|discriminate]. intros [= <-].
        apply writeResponse_regular; auto.
      * intros [= <-]. apply writeResponse_regular; auto.
      * discriminate.
    + intros [= <-]. apply getMfa_error_code in Hmfa.
      apply writeResponse_regular; [auto|]. destruct Hmfa; auto.
  - unfold credHandler. destruct (last _); [|discriminate].
    destruct (_ <? _)%nat.
    + intros [= <-]. split; [apply writeResponse_regular; auto|discriminate].
    + destruct (assumeRole env w) as [w1 [[b|e]|]]; cbn [snd]; try discriminate;
        intros [= <-]; (split; [apply writeResponse_regular; auto|discriminate]).
  - cbn [snd refreshHandler]. intros [= <-].
    split; [apply writeResponse_regular; auto|reflexivity].
  - unfold listRoleHandler. destruct (json_Marshal_strings h _); cbn [snd];
      intros [= <-]; (split; [apply writeResponse_regular; auto|discriminate]).
Qed.

Lemma responses_regular_witness :
  regular (response 401 "17" "MFA code required").
Proof.
  destruct (responses_regular example_env
              {| os_UserCacheDir := Ok ".cache"; NewConfigResolver := Ok {| ListProfiles := fun _ => [] |};
                 StdLogger := {| LevelDebug := false |};
                 json_Marshal_strings := fun _ => Ok "[]" |}
              (dev_world ".cache") {| world := dev_world ".cache"; cfg := None |}
              (post ProfilePath "secure") (response 401 "17" "MFA code required"))
    as [H _].
  apply H. vm_compute. reflexivity.
Defined.

(** ** Start-up *)

(** X14.  [handleOptions] leaves [cred] alone and takes the cache directory
    from the options, or else from the host, or else leaves it empty (and
    the service then runs without cache file).  It fails exactly when the
    configuration resolver cannot be made, and then [cfg] is not assigned
    although the other variables are.  On a process that holds no
    credentials yet, the state it leaves, and the state after the initial
    profile was posted, are states of the running server, on which
    credentials go with the role they were made for; the initial profile
    keeps its name up to 4096 bytes, and without initial profile nothing is
    asked of anyone. *)
Theorem startup_state (env : Env) (h : Host) (sv : Service) (opts : EC2MetadataInput) :
  let sv1 := fst (handleOptions h sv opts) in
  let w1 := world sv1 in
  cred w1 = cred (world sv)
  /\ profile w1 = InitialProfile opts
  /\ (SessionCacheDir opts <> EmptyString -> cacheDir w1 = SessionCacheDir opts)
  /\ (SessionCacheDir opts = EmptyString ->
      cacheDir w1 = match os_UserCacheDir h with Ok d => d | Err _ => EmptyString end)
  /\ (forall e, snd (handleOptions h sv opts) = Some e <-> NewConfigResolver h = Err e)
  /\ (snd (handleOptions h sv opts) <> None -> cfg sv1 = cfg sv)
  /\ (cred (world sv) = None ->
      reachable env w1
      /\ forall w', initialProfile env w1 = Some w' ->
            reachable env w' /\ credentialsOfRole env w'
            /\ profile w' = substring 0 profileBufferLen (InitialProfile opts)
            /\ (InitialProfile opts = EmptyString -> w' = w1)).
Proof.
  cbv zeta. unfold handleOptions.
  set (w1 := {| profile := InitialProfile opts; role := in_Config opts;
                s := in_Session opts; cred := cred (world sv); usr := User opts;
                cacheDir := _; logDebug := _; files := files (world sv);
                ticks := ticks (world sv); trace := trace (world sv) |}).
  assert (Hw : world (fst (match NewConfigResolver h with
                           | Ok cf => ({| world := w1; cfg := Some cf |}, None)
                           | Err e => ({| world := w1; cfg := cfg sv |}, Some e)
                           end)) = w1)
    by now destruct (NewConfigResolver h).
  rewrite Hw. split_and!.
  - reflexivity.
  - reflexivity.
  - intros Hne. unfold w1. cbn [cacheDir].
    destruct (SessionCacheDir opts); [contradiction|reflexivity].
  - intros Hnil. unfold w1. cbn [cacheDir]. now rewrite Hnil.
  - intros e. destruct (NewConfigResolver h); cbn [snd]; split; congruence.
  - destruct (NewConfigResolver h); cbn [snd fst cfg]; [congruence|reflexivity].
  - intros Hnil.
    assert (Hr1 : reachable env w1) by (apply reachable_start; exact Hnil).
    split; [exact Hr1|].
    intros w'. unfold initialProfile.
    change (profile w1) with (InitialProfile opts).
    destruct (InitialProfile opts) as [|a name] eqn:Hname.
    + cbn [String.length Nat.ltb Nat.leb]. intros [= <-].
      split_and!; [exact Hr1|now apply MetadataFacts.reachable_credentialsOfRole| |reflexivity].
      reflexivity.
    + cbn [String.length]. change (S (String.length name) <? 1)%nat with false. cbv iota.
      set (r := {| Method := MethodPost; Path := ProfilePath;
                   Body := Some (strings_NewReader (String a name)) |}).
      destruct (profileHandler env w1 r) as [w5 [resp|]] eqn:Hh; [|discriminate].
      intros [= <-].
      assert (Hr5 : reachable env w5).
      { apply (reachable_step env w1); [exact Hr1|].
        replace w5 with (fst (profileHandler env w1 r)) by now rewrite Hh.
        constructor. }
      split_and!; [exact Hr5|now apply MetadataFacts.reachable_credentialsOfRole| |discriminate].
      assert (Hp := profileHandler_profile env w1 r (strings_NewReader (String a name))
                      eq_refl eq_refl eq_refl).
      rewrite Hh in Hp. cbn [fst] in Hp. rewrite Hp.
      unfold Read, strings_NewReader. cbn [fst delivered].
      generalize (String a name). intros text.
      rewrite MetadataFacts.substring_all; [reflexivity|apply length_substring_bound].
Qed.

Lemma startup_state_witness :
  let h := {| os_UserCacheDir := Err (OtherError "no home");
              NewConfigResolver := Ok {| ListProfiles := fun _ => ["dev"; "prod"] |};
              StdLogger := {| LevelDebug := false |};
              json_Marshal_strings := fun _ => Err (OtherError "unused") |} in
  let sv := {| world := initial_world ".cache"; cfg := None |} in
  let opts := {| in_Config := None; InitialProfile := "dev"; in_Logger := None;
                 in_Session := None; SessionCacheDir := EmptyString; User := None |} in
  cacheDir (world (fst (handleOptions h sv opts))) = EmptyString
  /\ forall w', initialProfile example_env (world (fst (handleOptions h sv opts))) = Some w' ->
                profile w' = "dev".
Proof.
  intros h sv opts.
  destruct (startup_state example_env h sv opts) as (_ & _ & _ & Hdir & _ & _ & Hstart).
  split; [exact (Hdir eq_refl)|].
  intros w' Hw'. destruct (Hstart eq_refl) as [_ H].
  destruct (H w' Hw') as (_ & _ & Hp & _). rewrite Hp. vm_compute. reflexivity.
Defined.

(** ** Flows *)

(** The state after a POST /profile that resolved to [p] and did not panic. *)
Lemma profileHandler_selected (env : Env) (w w1 : World) (r : Request) (p : AwsConfig) :
  Method r = MethodPost ->
  getProfileConfig env w (Body r) = (w1, Ok p) ->
  snd (profileHandler env w r) <> None ->
  role (fst (profileHandler env w r)) = Some p
  /\ cacheDir (fst (profileHandler env w r)) = cacheDir w.
Proof.
  intros Hm Hcfg Hresp.
  assert (Hfst := MetadataFacts.profileHandler_fst env w w1 r p Hm Hcfg).
  destruct (MetadataFacts.getProfileConfig_ok env w w1 (Body r) p Hcfg)
    as (rd & _ & Hw1 & _).
  assert (Hsnd : snd (establishSession env w1 p) <> None).
  { intros Hn. apply Hresp. unfold profileHandler. is_post Hm. rewrite Hcfg.
    destruct (establishSession env w1 p) as [w5 [res|]]; [discriminate|reflexivity]. }
  destruct (establishSession_fetch env w1 p Hsnd) as (w2 & Hd2 & Heq).
  rewrite Hfst, Heq.
  match goal with
  | |- role (fst (cred_Get env ?w4)) = _ /\ _ =>
      destruct (MetadataFacts.cred_Get_fresh env w4 _ _ eq_refl)
        as (_ & _ & Hr & _ & _ & _ & _ & Hd)
  end.
  split; [exact Hr|]. rewrite Hd. cbn [cacheDir set_cred set_role].
  rewrite Hd2, Hw1. reflexivity.
Qed.

(** X15.  The MFA flow.  After a POST /profile that resolved to [p] and was
    answered (with 401 when a code is needed), a POST /mfa with a code of
    six bytes or more asks the session token provider once more, for the
    session of the state the first request left, with the duration, the MFA
    serial and the cache file of [p] and the first six bytes as token
    code; the role stays [p]. *)
Theorem mfa_after_profile (env : Env) (w w1 : World) (r1 r2 : Request)
    (p : AwsConfig) (mfa : string) :
  Method r1 = MethodPost ->
  getProfileConfig env w (Body r1) = (w1, Ok p) ->
  snd (profileHandler env w r1) <> None ->
  getMfa (Body r2) = Ok mfa ->
  let w' := fst (profileHandler env w r1) in
  let w'' := fst (mfaHandler env w' r2) in
  let pv := {| Duration := SessionDuration p; SerialNumber := MfaSerial p;
               TokenCode := mfa;
               Cache := Cache (sessionProvider env w p EmptyString) |} in
  role w'' = Some p
  /\ trace w'' = (trace w' ++ [EvSessionToken (s w') pv])%list
  /\ snd (mfaHandler env w' r2) <> None.
Proof.
  intros Hm Hcfg Hresp Hmfa w' w'' pv.
  destruct (profileHandler_selected env w w1 r1 p Hm Hcfg Hresp) as [Hro Hd].
  fold w' in Hro, Hd.
  assert (Hpv : sessionProvider env w' p mfa = pv).
  { unfold pv, sessionProvider. cbn [Cache].
    now rewrite (MetadataFacts.cacheFile_cacheDir env w w'). }
  subst w''. unfold mfaHandler. rewrite Hmfa, Hro, Hpv.
  erewrite cred_Get_made by reflexivity. cbn [files set_cred].
  destruct (SessionTokenRetrieve env (s w') pv (files w')) as [fs [[v x]|e]];
    cbn [fst snd cred set_cred record set_files trace role];
    (split_and!; [exact Hro|reflexivity|discriminate]).
Qed.

Lemma mfa_after_profile_witness :
  let w := dev_world ".cache" in
  let w' := fst (profileHandler example_env w (post ProfilePath "secure")) in
  let w'' := fst (mfaHandler example_env w' (post MfaPath "654321")) in
  role w'' = Some (example_config "secure").
Proof.
  intros w w' w''.
  assert (Hcfg : getProfileConfig example_env w (Body (post ProfilePath "secure"))
                 = (set_profile "secure" w, Ok (example_config "secure")))
    by (vm_compute; reflexivity).
  assert (Hresp : snd (profileHandler example_env w (post ProfilePath "secure")) <> None)
    by (vm_compute; discriminate).
  exact (proj1 (mfa_after_profile example_env w _ (post ProfilePath "secure")
                  (post MfaPath "654321") (example_config "secure") "654321"
                  eq_refl Hcfg Hresp eq_refl)).
Defined.

(** X16.  A failed identity lookup does not stop a profile switch.  When
    the identity is not known, the source profile changes, the session is
    made and [GetCallerIdentity] fails, [updateSession] returns the error
    and [profileHandler] only logs it: the role is switched, the session
    credentials are fetched and an answer is written, yet [usr] stays nil,
    and a credential request that names a role then panics. *)
Theorem identity_failure_continues (env : Env) (w w1 : World) (r : Request)
    (p : AwsConfig) (se : Session) (e0 : error) :
  Method r = MethodPost ->
  getProfileConfig env w (Body r) = (w1, Ok p) ->
  usr w = None ->
  sourceChanged w p = true ->
  NewSessionWithOptions env (sessionOptions w p) = Ok se ->
  GetCallerIdentity env se = Err e0 ->
  let w' := fst (profileHandler env w r) in
  usr w' = None /\ s w' = Some se /\ role w' = Some p
  /\ snd (profileHandler env w r) <> None
  /\ (forall r' dir seg, Path r' = dir ++ "/" ++ seg -> no_slash seg = true ->
                         seg <> EmptyString -> credHandler env w' r' = (w', None)).
Proof.
  intros Hm Hcfg Hu Hch Hnew Hid w'.
  destruct (MetadataFacts.getProfileConfig_ok env w w1 (Body r) p Hcfg)
    as (rd & _ & Hw1 & _).
  assert (Hest : establishSession env w1 p
                 = cred_Get env
                     (set_cred (Some (NewSessionCredentials (Some se)
                                        (sessionProvider env w p EmptyString)))
                        (set_role (Some p)
                           (record (EvGetCallerIdentity se)
                              (set_s (Some se)
                                 (record (EvNewSession (sessionOptions w p)) w1)))))).
  { unfold establishSession.
    replace (sourceChanged w1 p) with true by (rewrite Hw1; symmetry; exact Hch).
    unfold updateSession.
    replace (NewSessionWithOptions env _) with (@Ok error Session se)
      by (rewrite <- Hnew, Hw1; reflexivity).
    cbn [usr set_s record]. rewrite Hw1. cbn [usr set_profile]. rewrite Hu, Hid.
    reflexivity. }
  assert (Hfacts : usr w' = None /\ s w' = Some se /\ role w' = Some p
                   /\ snd (profileHandler env w r) <> None).
  { subst w'. unfold profileHandler. is_post Hm. rewrite Hcfg, Hest.
    erewrite cred_Get_made by reflexivity. cbn [files set_cred].
    destruct (SessionTokenRetrieve env _ _ _) as [fs [[v x]|e]];
      [|destruct (mfaRequired e)];
      cbn [fst snd cred usr s role set_cred set_role set_s record set_files];
      rewrite Hw1; cbn [usr set_profile];
      (split_and!; [exact Hu|reflexivity|reflexivity|discriminate]). }
  destruct Hfacts as (Hu' & Hs' & Hr' & Hresp).
  split_and!; try assumption.
  intros r' dir seg Hpath Hseg Hne. unfold credHandler. rewrite Hpath.
  destruct (Split_slash_last dir seg Hseg) as (a & b & l & -> & Hlast).
  cbn [tail]. rewrite Hlast.
  destruct seg; [contradiction|]. simpl (_ <? _)%nat. cbv iota.
  unfold assumeRole. now rewrite Hr', Hs', Hu'.
Qed.

Lemma identity_failure_continues_witness :
  let w := initial_world ".cache" in
  let w' := fst (profileHandler anonymous_env w (post ProfilePath "dev")) in
  snd (profileHandler anonymous_env w (post ProfilePath "dev")) <> None
  /\ credHandler anonymous_env w' (get (EC2MetadataCredentialPath ++ "dev")) = (w', None).
Proof.
  intros w w'.
  assert (Hcfg : getProfileConfig anonymous_env w (Body (post ProfilePath "dev"))
                 = (set_profile "dev" w, Ok (example_config "dev")))
    by (vm_compute; reflexivity).
  destruct (identity_failure_continues anonymous_env w _ (post ProfilePath "dev")
              (example_config "dev")
              {| Config := {| CredentialsChainVerboseErrors := true; LogLevelDebug := false |};
                 Profile := "base" |}
              (AwsError "AccessDenied" "not authorized")
              eq_refl Hcfg eq_refl eq_refl eq_refl eq_refl)
    as (_ & _ & _ & Hresp & Hpanic).
  split; [exact Hresp|].
  apply (Hpanic _ "/latest/meta-data/iam/security-credentials" "dev");
    [reflexivity|reflexivity|discriminate].
Defined.

End MetadataExtra.
